(** * fastlane_decoder: decoding of fast_lane.ai files, node geometry and export

    A shallow embedding of [fastlane_decoder.py].  Python floats are IEEE
    binary64 values, modelled by the kernel's primitive floats; Python
    integers are [Z]; exceptions are an explicit error result; the file
    system and the standard output touched by the writers are an explicit
    state.  The C library behind [math] and the text produced by [csv],
    [json] and [str.format] are parameters.  A file to parse is given by its
    content. *)

From Stdlib Require Import ZArith Floats Bool Lia.
From Stdlib.Strings Require Import Byte.
From stdpp Require Import base list strings gmap pretty sorting.

Open Scope Z_scope.

(** ** Exceptions *)

Inductive exn : Type :=
| ValueError (msg : string)
| IndexError
| ZeroDivisionError
| KeyError (key : string)
| TypeError
| RuntimeError (cause : exn).

Inductive result (A : Type) : Type :=
| Ok (a : A)
| Raise (e : exn).
Arguments Ok {A} a.
Arguments Raise {A} e.

#[global] Instance result_ret : MRet result := fun A a => Ok a.
#[global] Instance result_bind : MBind result := fun A B k r =>
  match r with
  | Ok a => k a
  | Raise e => Raise e
  end.

#[global] Instance result_fmap : FMap result := fun A B f r =>
  match r with
  | Ok a => Ok (f a)
  | Raise e => Raise e
  end.

(** [try: body except Exception: handler] *)
Definition try_except {A} (body : result A) (handler : A) : A :=
  match body with
  | Ok a => a
  | Raise _ => handler
  end.

(** ** The [math] module

    [math.atan2], [math.cos] and [math.sin] call the C library; the three C
    functions are a parameter of the model.  [math.cos] and [math.sin] raise
    [ValueError] on an infinite argument, [math.atan2] and [math.degrees]
    never raise on floats. *)

Record libm : Type := {
  c_atan2 : float -> float -> float;
  c_cos : float -> float;
  c_sin : float -> float
}.

Definition math_pi : float := 0x1.921fb54442d18p+1%float.
Definition radToDeg : float := (180 / math_pi)%float.

Definition math_degrees (x : float) : float := (x * radToDeg)%float.

Definition math_atan2 (M : libm) (y x : float) : float := c_atan2 M y x.

Definition math_cos (M : libm) (x : float) : result float :=
  if is_infinity x then Raise (ValueError "math domain error") else Ok (c_cos M x).

Definition math_sin (M : libm) (x : float) : result float :=
  if is_infinity x then Raise (ValueError "math domain error") else Ok (c_sin M x).

(** ** Tuples and sequences *)

Definition vec3 : Type := float * float * float.

Definition vec_0 (p : vec3) : float := let '(a, _, _) := p in a.
Definition vec_1 (p : vec3) : float := let '(_, b, _) := p in b.
Definition vec_2 (p : vec3) : float := let '(_, _, c) := p in c.

(** A [rawIdeal] entry [(x, y, z, distance, id)]. *)
Definition ideal : Type := float * float * float * float * Z.

Definition ideal_0 (r : ideal) : float := let '(a, _, _, _, _) := r in a.
Definition ideal_1 (r : ideal) : float := let '(_, b, _, _, _) := r in b.
Definition ideal_2 (r : ideal) : float := let '(_, _, c, _, _) := r in c.
Definition ideal_3 (r : ideal) : float := let '(_, _, _, d, _) := r in d.
Definition ideal_4 (r : ideal) : Z := let '(_, _, _, _, i) := r in i.

(** [seq[i]] for a Python list or tuple: a negative index counts from the
    end, an index out of range raises [IndexError]. *)
Definition py_index {A} (l : list A) (i : Z) : result A :=
  let n := Z.of_nat (length l) in
  let j := if i <? 0 then i + n else i in
  if (j <? 0) || (n <=? j) then Raise IndexError
  else match l !! Z.to_nat j with
       | Some a => Ok a
       | None => Raise IndexError
       end.

(** ** slideVec2d *)

Definition slideVec2d (M : libm) (point : vec3) (angle offset : float) : result vec3 :=
  let '(p0, p1, p2) := point in
  c ← math_cos M (angle * math_pi / 180)%float;
  let x := (p0 + c * offset)%float in
  s ← math_sin M (angle * math_pi / 180)%float;
  let z := (p2 - s * offset)%float in
  Ok (x, p1, z).

(** ** TrackDetailNode *)

Record TrackDetailNode : Type := {
  id : Z;
  position : vec3;
  distance : float;
  direction : float;
  wallLeft : option vec3;
  wallRight : option vec3;
  trackCenter : vec3
}.

(** The body of the [try] block of [TrackDetailNode.__init__]: the two wall
    points and the track centre. *)
Definition walls_try (M : libm) (pos : vec3) (dir : float) (rawDetail : list float)
  : result (vec3 * vec3 * vec3) :=
  _wallLeft ← py_index rawDetail 5;
  _wallRight ← py_index rawDetail 6;
  wl ← slideVec2d M pos (- dir + 90)%float _wallLeft;
  wr ← slideVec2d M pos (- dir - 90)%float _wallRight;
  let '(l0, l1, l2) := wl in
  let '(r0, r1, r2) := wr in
  Ok (wl, wr, ((l0 + r0) / 2, (l1 + r1) / 2, (l2 + r2) / 2)%float).

Definition TrackDetailNode_init (M : libm) (rawIdeal prevRawIdeal : ideal)
    (rawDetail : list float) : TrackDetailNode :=
  let pos := (ideal_0 rawIdeal, ideal_1 rawIdeal, ideal_2 rawIdeal) in
  let dir := (- math_degrees
                  (math_atan2 M (ideal_2 prevRawIdeal - vec_1 pos)
                                (vec_0 pos - ideal_0 prevRawIdeal)))%float in
  let '(wl, wr, tc) :=
    try_except
      ('(wl, wr, tc) ← walls_try M pos dir rawDetail; Ok (Some wl, Some wr, tc))
      (None, None, pos) in
  {| id := ideal_4 rawIdeal;
     position := pos;
     distance := ideal_3 rawIdeal;
     direction := dir;
     wallLeft := wl;
     wallRight := wr;
     trackCenter := tc |}.

(** ** The [struct] module

    The formats [i] and [f] read four bytes, least significant first: a
    two's complement integer and an IEEE binary32 value, which Python
    widens to a float without loss. *)

Definition le_u32 (bs : list Byte.byte) : Z :=
  foldr (fun b acc => Z.of_N (Byte.to_N b) + 256 * acc) 0 bs.

Definition unpack_i (bs : list Byte.byte) : Z :=
  let u := le_u32 bs in
  if u <? 2 ^ 31 then u else u - 2 ^ 32.

Definition float_of_Z (m : Z) : float := of_uint63 (Uint63.of_Z m).

Definition unpack_f (bs : list Byte.byte) : float :=
  let u := le_u32 bs in
  let m := u mod 2 ^ 23 in
  let e := (u / 2 ^ 23) mod 2 ^ 8 in
  let a :=
    if e =? 255 then (if m =? 0 then infinity else nan)
    else if e =? 0 then Z.ldexp (float_of_Z m) (-149)
    else Z.ldexp (float_of_Z (m + 2 ^ 23)) (e - 150) in
  if u / 2 ^ 31 =? 0 then a else (- a)%float.

(** The four-byte fields of a record, in order. *)
Fixpoint fields (n : nat) (bs : list Byte.byte) : list (list Byte.byte) :=
  match n with
  | O => []
  | S n' => take 4 bs :: fields n' (drop 4 bs)
  end.

(** [struct.unpack("4i", data)] *)
Definition unpack_4i (bs : list Byte.byte) : Z * Z * Z * Z :=
  (unpack_i (take 4 bs), unpack_i (take 4 (drop 4 bs)),
   unpack_i (take 4 (drop 8 bs)), unpack_i (take 4 (drop 12 bs))).

(** [struct.unpack("4f i", rec)] *)
Definition unpack_4f_i (bs : list Byte.byte) : ideal :=
  (unpack_f (take 4 bs), unpack_f (take 4 (drop 4 bs)),
   unpack_f (take 4 (drop 8 bs)), unpack_f (take 4 (drop 12 bs)),
   unpack_i (take 4 (drop 16 bs))).

(** [struct.unpack("18f", rawDetailBytes)] *)
Definition unpack_18f (bs : list Byte.byte) : list float :=
  unpack_f <$> fields 18 bs.

(** ** getNodesFromFastLane *)

(** [buffer.read(n)]: the bytes read, at most [n], and the rest of the file. *)
Definition read (n : nat) (buffer : list Byte.byte) : list Byte.byte * list Byte.byte :=
  (take n buffer, drop n buffer).

(** The loop [for i in range(length)] that fills [rawIdeal]; [n] iterations
    are left. *)
Fixpoint read_rawIdeal (n : nat) (buffer : list Byte.byte)
  : result (list ideal * list Byte.byte) :=
  match n with
  | O => Ok ([], buffer)
  | S n' =>
      let '(rec, buffer) := read 20 buffer in
      if (length rec <? 20)%nat
      then Raise (ValueError "Unexpected end of file while reading rawIdeal.")
      else '(rawIdeal, buffer) ← read_rawIdeal n' buffer;
           Ok (unpack_4f_i rec :: rawIdeal, buffer)
  end.

(** [extraCount], read after the ideal block. *)
Definition read_extraCount (buffer : list Byte.byte) : Z * list Byte.byte :=
  let '(extraCountBytes, buffer) := read 4 buffer in
  if (length extraCountBytes <? 4)%nat then (0, buffer)
  else (unpack_i extraCountBytes, buffer).

(** The bytes of one detail block as [rawDetail]. *)
Definition decode_rawDetail (rawDetailBytes : list Byte.byte) : list float :=
  if (length rawDetailBytes <? 72)%nat then replicate 18 0%float
  else unpack_18f rawDetailBytes.

(** The inner [try] of one iteration: the node, or the exception that the
    [except] clause swallows. *)
Definition detail_node (M : libm) (rawIdeal : list ideal) (prevRawIdeal : ideal)
    (rawDetailBytes : list Byte.byte) (i : Z) : result TrackDetailNode :=
  let rawDetail := decode_rawDetail rawDetailBytes in
  cur ← py_index rawIdeal i;
  Ok (TrackDetailNode_init M cur prevRawIdeal rawDetail).

(** The loop [for i in range(extraCount)], from index [i] with [n]
    iterations left. *)
Fixpoint detail_loop (M : libm) (rawIdeal : list ideal) (len : Z)
    (n : nat) (i : Z) (buffer : list Byte.byte) : result (list TrackDetailNode) :=
  match n with
  | O => Ok []
  | S n' =>
      prevRawIdeal ← (if 0 <? i then py_index rawIdeal (i - 1)
                      else py_index rawIdeal (len - 1));
      let '(rawDetailBytes, buffer) := read 72 buffer in
      match detail_node M rawIdeal prevRawIdeal rawDetailBytes i with
      | Ok node =>
          nodes ← detail_loop M rawIdeal len n' (i + 1) buffer;
          Ok (node :: nodes)
      | Raise _ => detail_loop M rawIdeal len n' (i + 1) buffer
      end
  end.

(** The body of the outer [try], on the content of [fai_file]. *)
Definition parse_body (M : libm) (buffer : list Byte.byte) : result (list TrackDetailNode) :=
  let '(header_data, buffer) := read 16 buffer in
  if (length header_data <? 16)%nat
  then Raise (ValueError "File too short or invalid header.")
  else
    let '(header, len, lapTime, sampleCount) := unpack_4i header_data in
    '(rawIdeal, buffer) ← read_rawIdeal (Z.to_nat len) buffer;
    let '(extraCount, buffer) := read_extraCount buffer in
    detail_loop M rawIdeal len (Z.to_nat extraCount) 0 buffer.

Definition getNodesFromFastLane (M : libm) (content : list Byte.byte)
  : result (list TrackDetailNode) :=
  match parse_body M content with
  | Ok nodes => Ok nodes
  | Raise e => Raise (RuntimeError e)
  end.

(** ** nodes_to_dicts *)

Inductive value : Type :=
| VInt (n : Z)
| VFloat (x : float)
| VNone.

(** A Python dict with string keys, in insertion order. *)
Definition dict : Type := list (string * value).

Fixpoint dict_get (d : dict) (k : string) : option value :=
  match d with
  | [] => None
  | (k', v) :: d' => if String.eqb k' k then Some v else dict_get d' k
  end.

Fixpoint dict_set (d : dict) (k : string) (v : value) : dict :=
  match d with
  | [] => [(k, v)]
  | (k', v') :: d' => if String.eqb k' k then (k, v) :: d' else (k', v') :: dict_set d' k v
  end.

(** [d.update(e)] *)
Definition dict_update (d e : dict) : dict :=
  fold_left (fun acc kv => dict_set acc (fst kv) (snd kv)) e d.

Definition keys (d : dict) : list string := fst <$> d.

(** The three fields written for one wall point. *)
Definition wall_fields (kx ky kz : string) (wall : option vec3) : dict :=
  match wall with
  | Some (wx, wy, wz) =>
      let '(wx, wz) := (wz, (- wx)%float) in
      [(kx, VFloat wx); (ky, VFloat wy); (kz, VFloat wz)]
  | None => [(kx, VNone); (ky, VNone); (kz, VNone)]
  end.

(** The dict built for node [n] at position [idx] of the enumeration. *)
Definition node_dict (idx : Z) (n : TrackDetailNode) (include_walls : bool) : dict :=
  let '(x, y, z) := position n in
  let '(x, z) := (z, (- x)%float) in
  let d := [("index", VInt idx); ("id", VInt (id n)); ("x", VFloat x); ("y", VFloat y);
            ("z", VFloat z); ("distance", VFloat (distance n));
            ("direction", VFloat (direction n))] in
  if include_walls then
    let d := dict_update d (wall_fields "wallLeft_x" "wallLeft_y" "wallLeft_z" (wallLeft n)) in
    dict_update d (wall_fields "wallRight_x" "wallRight_y" "wallRight_z" (wallRight n))
  else d.

(** The loop over [enumerate(nodes)], from index [idx]. *)
Fixpoint nodes_to_dicts_from (idx : Z) (nodes : list TrackDetailNode)
    (include_walls : bool) (subsample : Z) : result (list dict) :=
  match nodes with
  | [] => Ok []
  | n :: nodes' =>
      if subsample =? 0 then Raise ZeroDivisionError
      else if negb (idx mod subsample =? 0)
      then nodes_to_dicts_from (idx + 1) nodes' include_walls subsample
      else out ← nodes_to_dicts_from (idx + 1) nodes' include_walls subsample;
           Ok (node_dict idx n include_walls :: out)
  end.

Definition nodes_to_dicts (nodes : list TrackDetailNode) (include_walls : bool)
    (subsample : Z) : result (list dict) :=
  nodes_to_dicts_from 0 nodes include_walls subsample.

(** ** Writers

    The writers act on the files of the file system, a map from paths to
    contents, and on the lines printed to the standard output.  The text
    that the [csv] and [json] modules and [str.format] produce is a
    parameter of the model. *)

Record world : Type := {
  files : gmap string string;
  stdout : list string
}.

Record textlib : Type := {
  csv_header : list string -> string;
  csv_row : list string -> dict -> result string;
  json_dump : list dict -> result string;
  format_6f : value -> result string
}.

(** [print(line)] *)
Definition print (line : string) (w : world) : world :=
  {| files := files w; stdout := stdout w ++ [line] |}.

(** [open(out_file, "w")]: the file is created, or emptied when it exists. *)
Definition open_w (out_file : string) (w : world) : world :=
  {| files := <[out_file := ""]> (files w); stdout := stdout w |}.

(** [f.write(text)] on the file opened at [out_file]. *)
Definition fwrite (out_file text : string) (w : world) : world :=
  {| files := <[out_file := default "" (files w !! out_file) +:+ text]> (files w);
     stdout := stdout w |}.

(** A loop that writes one text per element, and stops at the first
    exception with what was written so far. *)
Fixpoint write_each {A} (render : A -> result string) (xs : list A)
    (out_file : string) (w : world) : world * result unit :=
  match xs with
  | [] => (w, Ok tt)
  | x :: xs' =>
      match render x with
      | Ok text => write_each render xs' out_file (fwrite out_file text w)
      | Raise e => (w, Raise e)
      end
  end.

Definition write_csv (T : textlib) (dicts : list dict) (out_file : string) (w : world)
  : world * result unit :=
  match dicts with
  | [] => (print "No data to write." w, Ok tt)
  | d0 :: _ =>
      let ks := keys d0 in
      let w := open_w out_file w in
      let w := fwrite out_file (csv_header T ks) w in
      write_each (csv_row T ks) dicts out_file w
  end.

Definition write_json (T : textlib) (dicts : list dict) (out_file : string) (w : world)
  : world * result unit :=
  let w := open_w out_file w in
  write_each (json_dump T) [dicts] out_file w.

(** [d[k]] *)
Definition dict_item (d : dict) (k : string) : result value :=
  match dict_get d k with
  | Some v => Ok v
  | None => Raise (KeyError k)
  end.

(** The line ["{0:.6f},{1:.6f}\n".format(d['x'], d['z'])]. *)
Definition txt_line (T : textlib) (d : dict) : result string :=
  x ← dict_item d "x";
  z ← dict_item d "z";
  sx ← format_6f T x;
  sz ← format_6f T z;
  Ok (sx +:+ "," +:+ sz +:+ String (Ascii.ascii_of_nat 10) "").

Definition write_txt (T : textlib) (dicts : list dict) (out_file : string) (w : world)
  : world * result unit :=
  let w := open_w out_file w in
  write_each (txt_line T) dicts out_file w.

(** ** Stages of the parse, for the statements below *)

(** The header and the ideal block: the [length] field, [rawIdeal] and the
    bytes that follow the block. *)
Definition ideal_block (buffer : list Byte.byte)
  : result (Z * list ideal * list Byte.byte) :=
  let '(header_data, buffer) := read 16 buffer in
  if (length header_data <? 16)%nat
  then Raise (ValueError "File too short or invalid header.")
  else
    let '(header, len, lapTime, sampleCount) := unpack_4i header_data in
    '(rawIdeal, buffer) ← read_rawIdeal (Z.to_nat len) buffer;
    Ok (len, rawIdeal, buffer).

(** The index of the previous ideal sample at iteration [i]. *)
Definition prev_index (len i : Z) : Z :=
  if 0 <? i then i - 1 else len - 1.

(** The bytes that iteration [k] of the detail loop reads from the bytes
    after [extraCount]. *)
Definition detail_bytes (buffer : list Byte.byte) (k : nat) : list Byte.byte :=
  take 72 (drop (72 * k) buffer).

(** The node that iteration [i] of the detail loop builds from the bytes
    [bs] it read. *)
Definition node_at (M : libm) (rawIdeal : list ideal) (len i : Z) (bs : list Byte.byte)
  : result TrackDetailNode :=
  prev ← py_index rawIdeal (prev_index len i);
  detail_node M rawIdeal prev bs i.

(** ** Notions of the specification *)

Definition rotate (p : vec3) : vec3 :=
  let '(x, y, z) := p in (z, y, (- x)%float).

(** The point stored in a dict under three keys. *)
Definition dict_point (d : dict) (kx ky kz : string) : option (value * value * value) :=
  x ← dict_get d kx; y ← dict_get d ky; z ← dict_get d kz; Some (x, y, z).

Definition point_values (p : vec3) : value * value * value :=
  let '(x, y, z) := p in (VFloat x, VFloat y, VFloat z).

(** The values of the three fields of a wall point: numbers, or nulls when
    the point is absent. *)
Definition wall_values (wall : option vec3) : value * value * value :=
  match wall with
  | Some p => point_values p
  | None => (VNone, VNone, VNone)
  end.

Definition midpoint (a b : vec3) : vec3 :=
  let '(a0, a1, a2) := a in
  let '(b0, b1, b2) := b in
  ((a0 + b0) / 2, (a1 + b1) / 2, (a2 + b2) / 2)%float.

(** The point [p] moved by [offset] along the heading [h], in degrees:
    [(x + cos(h) * offset, y, z - sin(h) * offset)]. *)
Definition moved (M : libm) (p : vec3) (h offset : float) : vec3 :=
  let '(x, y, z) := p in
  (x + c_cos M (h * math_pi / 180) * offset, y,
   z - c_sin M (h * math_pi / 180) * offset)%float.

(** Numerical equality of the x and z coordinates, with the same y. *)
Definition same_point (p q : vec3) : Prop :=
  (vec_0 p =? vec_0 q)%float = true /\ vec_1 p = vec_1 q /\
  (vec_2 p =? vec_2 q)%float = true.

(** The original index of the [k]-th node retained from index [idx] on. *)
Definition retained_index (idx N : Z) (k : nat) : Z :=
  idx + (- idx) mod N + Z.of_nat k * N.

(** ** Sample inputs *)

(** The C library at the arguments the examples reach: [atan2] on the
    horizontal axis (fixed by the C standard), cosine and sine at the quarter
    turns (the values of glibc), NaN on a NaN argument.  Elsewhere the
    table answers NaN; no example goes there. *)
Definition libm_sample : libm := {|
  c_atan2 y x :=
    if is_nan y || is_nan x then nan
    else if is_zero y && (0 <? x)%float then y
    else if is_zero y && (x <? 0)%float
         then (if get_sign y then - math_pi else math_pi)%float
    else nan;
  c_cos a :=
    if (abs a =? 0x1.921fb54442d18p+0)%float then 0x1.1a62633145c07p-54%float
    else if (a =? 0x1.2d97c7f3321d2p+2)%float then (-0x1.a79394c9e8a0ap-53)%float
    else nan;
  c_sin a :=
    if (a =? 0x1.921fb54442d18p+0)%float then 1%float
    else if (a =? -0x1.921fb54442d18p+0)%float then (-1)%float
    else if (a =? 0x1.2d97c7f3321d2p+2)%float then (-1)%float
    else nan
|}.

Definition byte_of_Z (z : Z) : Byte.byte :=
  default Byte.x00 (Byte.of_N (Z.to_N (z mod 256))).

(** Four bytes, least significant first, of a 32-bit word. *)
Definition pack_u32 (u : Z) : list Byte.byte :=
  [byte_of_Z u; byte_of_Z (u / 2 ^ 8); byte_of_Z (u / 2 ^ 16); byte_of_Z (u / 2 ^ 24)].

Definition pack_words (us : list Z) : list Byte.byte := us ≫= pack_u32.

(** The header [(1, 2, 0, 0)] and the ideal samples [(0,0,0,0,100)] and
    [(10,0,0,5,101)]. *)
Definition sample_ideal_block : list Byte.byte :=
  pack_words [1; 2; 0; 0;
              0; 0; 0; 0; 100;
              0x41200000; 0; 0; 0x40a00000; 101].

(** A detail block of zeros, except 3.0 at index 6. *)
Definition sample_detail : list Byte.byte :=
  pack_words [0; 0; 0; 0; 0; 0; 0x40400000; 0; 0; 0; 0; 0; 0; 0; 0; 0; 0; 0].

Definition sample_file : list Byte.byte :=
  sample_ideal_block ++ pack_words [1] ++ sample_detail.

(** The same ideal block, two detail records announced and none in the
    file: both are filled with zeros. *)
Definition truncated_file : list Byte.byte :=
  sample_ideal_block ++ pack_words [2].

(** The ideal samples [(1,0,2,0,7)] and [(NaN,0,0,0,6)], one detail record
    announced and none in the file. *)
Definition nan_file : list Byte.byte :=
  pack_words [1; 2; 0; 0;
              0x3f800000; 0; 0x40000000; 0; 7;
              0x7fc00000; 0; 0; 0; 6;
              1].

Definition empty_world : world := {| files := ∅; stdout := [] |}.

Definition sample_rawIdeal : list ideal :=
  [(0%float, 0%float, 0%float, 0%float, 100); (10%float, 0%float, 0%float, 5%float, 101)].

(** Three nodes given directly, as a caller of [nodes_to_dicts] may. *)
Definition sample_node (i : Z) (x : float) : TrackDetailNode :=
  {| id := i; position := (x, 0, 0)%float; distance := x; direction := 0;
     wallLeft := None; wallRight := None; trackCenter := (x, 0, 0)%float |}.

Definition sample_nodes : list TrackDetailNode :=
  [sample_node 100 0; sample_node 101 10; sample_node 102 20].

(** ** Further notions for the statements *)

(** The [length] field of a header. *)
Definition length_field (content : list Byte.byte) : Z :=
  let '(_, len, _, _) := unpack_4i (take 16 content) in len.

(** The first [n] records of twenty bytes of an ideal block, decoded. *)
Definition ideal_records (n : nat) (block : list Byte.byte) : list ideal :=
  (fun k => unpack_4f_i (take 20 (drop (20 * k) block))) <$> seq 0 n.

(** The number of multiples of [N] below [a]: [a / N], rounded up. *)
Definition cdiv (a N : Z) : Z := (a + N - 1) / N.

(** The keys of a record, in order, without and with the walls. *)
Definition record_keys (include_walls : bool) : list string :=
  ["index"; "id"; "x"; "y"; "z"; "distance"; "direction"] ++
  (if include_walls
   then ["wallLeft_x"; "wallLeft_y"; "wallLeft_z";
         "wallRight_x"; "wallRight_y"; "wallRight_z"]
   else []).

(** The texts of a list, one after the other. *)
Definition text_of (texts : list string) : string :=
  foldr String.append "" texts.

(** The world [w] with the content [c] in the file [f]. *)
Definition with_file (f c : string) (w : world) : world :=
  {| files := <[f := c]> (files w); stdout := stdout w |}.

(** ** A sample of the text libraries

    [str.format] with [.6f] is exact on floats: the decimal expansion of
    the binary value, rounded half to even at the sixth place.  The CSV and
    JSON texts are those of Python for records whose numbers are integers,
    whole floats below [10^16] in magnitude, NaN or infinities; a record
    with any other float is outside the sample and is refused. *)

Definition pad6 (n : Z) : string :=
  let s := pretty n in
  String.concat "" (replicate (6 - String.length s) "0"%string) +:+ s.

(** The integer nearest to [num / den], ties to even. *)
Definition round_half_even (num den : Z) : Z :=
  let q := num / den in
  let r := num mod den in
  if (den <? 2 * r) || ((den =? 2 * r) && Z.odd q) then q + 1 else q.

Definition fixed6_SF (x : spec_float) : string :=
  match x with
  | S754_nan => "nan"
  | S754_infinity s => if s then "-inf" else "inf"
  | S754_zero s => (if s then "-" else "") +:+ "0.000000"
  | S754_finite s m e =>
      let q := if 0 <=? e then Z.pos m * 2 ^ e * 10 ^ 6
               else round_half_even (Z.pos m * 10 ^ 6) (2 ^ (- e)) in
      (if s then "-" else "") +:+ pretty (q / 10 ^ 6) +:+ "." +:+ pad6 (q mod 10 ^ 6)
  end.

Definition sample_format_6f (v : value) : result string :=
  match v with
  | VFloat x => Ok (fixed6_SF (Prim2SF x))
  | VInt n => Ok (fixed6_SF (binary_normalize prec emax n 0 false))
  | VNone => Raise TypeError
  end.

(** [repr] of a float, on the floats of the sample; the names of NaN and
    of the infinities are those of [str] or those of [json]. *)
Definition sample_repr (nan_name inf_name : string) (x : float) : result string :=
  match Prim2SF x with
  | S754_nan => Ok nan_name
  | S754_infinity s => Ok ((if s then "-" else "") +:+ inf_name)
  | S754_zero s => Ok ((if s then "-" else "") +:+ "0.0")
  | S754_finite s m e =>
      if (0 <=? e) && (Z.pos m * 2 ^ e <? 10 ^ 16)
      then Ok ((if s then "-" else "") +:+ pretty (Z.pos m * 2 ^ e) +:+ ".0")
      else if (e <? 0) && (Z.pos m mod 2 ^ (- e) =? 0) && (Z.pos m / 2 ^ (- e) <? 10 ^ 16)
      then Ok ((if s then "-" else "") +:+ pretty (Z.pos m / 2 ^ (- e)) +:+ ".0")
      else Raise TypeError
  end.

Definition sample_csv_field (v : option value) : result string :=
  match v with
  | None | Some VNone => Ok ""
  | Some (VInt n) => Ok (pretty n)
  | Some (VFloat x) => sample_repr "nan" "inf" x
  end.

Definition sample_csv_row (ks : list string) (d : dict) : result string :=
  if forallb (fun k => bool_decide (k ∈ ks)) (keys d)
  then fields ← mapM (fun k => sample_csv_field (dict_get d k)) ks;
       Ok (String.concat "," fields +:+ String (Ascii.ascii_of_nat 13)
                                         (String (Ascii.ascii_of_nat 10) ""))
  else Raise (ValueError "dict contains fields not in fieldnames").

Definition sample_json_value (v : value) : result string :=
  match v with
  | VNone => Ok "null"
  | VInt n => Ok (pretty n)
  | VFloat x => sample_repr "NaN" "Infinity" x
  end.

Definition newline : string := String (Ascii.ascii_of_nat 10) "".
Definition quote : string := String (Ascii.ascii_of_nat 34) "".

Definition sample_json_dict (d : dict) : result string :=
  match d with
  | [] => Ok "  {}"
  | _ => items ← mapM (fun kv => v ← sample_json_value (snd kv);
                                  Ok ("    " +:+ quote +:+ fst kv +:+ quote +:+ ": " +:+ v)) d;
         Ok ("  {" +:+ newline +:+ String.concat ("," +:+ newline) items
             +:+ newline +:+ "  }")
  end.

Definition sample_json_dump (dicts : list dict) : result string :=
  match dicts with
  | [] => Ok "[]"
  | _ => ds ← mapM sample_json_dict dicts;
         Ok ("[" +:+ newline +:+ String.concat ("," +:+ newline) ds +:+ newline +:+ "]")
  end.

Definition textlib_sample : textlib := {|
  csv_header ks := String.concat "," ks +:+ String (Ascii.ascii_of_nat 13)
                                             (String (Ascii.ascii_of_nat 10) "");
  csv_row := sample_csv_row;
  json_dump := sample_json_dump;
  format_6f := sample_format_6f
|}.

(** ** main

    The arguments are those that [argparse] returns.  The functions of
    [glob] and [os.path], the working directory and the texts of exceptions
    are parameters.  A path names at most one file of the world, read as
    bytes and written as text; the directories that [os.makedirs] creates
    are a set of paths.  The opening of an output file is taken to
    succeed. *)

Inductive format : Type := Fcsv | Fjson | Ftxt.

Definition format_name (f : format) : string :=
  match f with Fcsv => "csv" | Fjson => "json" | Ftxt => "txt" end.

Record arguments : Type := {
  fastlane : string;
  out : option string;
  fmt : format;
  walls : bool;
  subsample : Z;
  to_stdout : bool
}.

Record oslib : Type := {
  glob : string -> list string;
  getcwd : string;
  isdir : string -> bool;
  sep : string;
  splitext : string -> string;
  basename : string -> string;
  path_join : string -> string -> string;
  open_error : string -> string;
  str_exn : exn -> string
}.

Record system : Type := {
  sys_world : world;
  sys_stderr : list string;
  sys_dirs : gset string
}.

(** How a run ends: [sys.exit], the end of the script (status 0), or an
    exception that nothing catches. *)
Inductive outcome : Type :=
| Exit (code : Z)
| Uncaught (e : exn)
| FileExistsError (path : string).

Definition set_world (w : world) (s : system) : system :=
  {| sys_world := w; sys_stderr := sys_stderr s; sys_dirs := sys_dirs s |}.

(** [print(line, file=sys.stderr)] *)
Definition eprint (line : string) (s : system) : system :=
  {| sys_world := sys_world s; sys_stderr := sys_stderr s ++ [line];
     sys_dirs := sys_dirs s |}.

(** [os.makedirs(path, exist_ok=True)] *)
Definition makedirs (path : string) (s : system) : system + outcome :=
  if bool_decide (is_Some (files (sys_world s) !! path))
  then inr (FileExistsError path)
  else inl {| sys_world := sys_world s; sys_stderr := sys_stderr s;
              sys_dirs := {[path]} ∪ sys_dirs s |}.

(** [s.endswith(suffix)] *)
Definition endswith (s suffix : string) : bool :=
  let n := String.length s in
  let m := String.length suffix in
  (m <=? n)%nat && String.eqb (String.substring (n - m) m s) suffix.

(** [sorted(matches)] *)
Definition string_le (a b : string) : Prop := String.leb a b = true.

#[global] Instance string_le_dec : RelDecision string_le.
Proof. intros a b. unfold string_le. apply _. Defined.

Definition sorted (matches : list string) : list string :=
  merge_sort string_le matches.

(** [getNodesFromFastLane(path)] on the files of the world: the nodes, or
    the text of the exception it raises. *)
Definition getNodes_at (M : libm) (O : oslib) (w : world) (path : string)
  : list TrackDetailNode + string :=
  let failed cause := "Failed to parse '" +:+ path +:+ "': " +:+ cause in
  match files w !! path with
  | None => inr (failed (open_error O path))
  | Some content =>
      match getNodesFromFastLane M (String.list_byte_of_string content) with
      | Ok nodes => inl nodes
      | Raise (RuntimeError e) => inr (failed (str_exn O e))
      | Raise e => inr (str_exn O e)
      end
  end.

(** A loop that prints one text per element, and stops at the first
    exception. *)
Fixpoint print_each {A} (render : A -> result string) (xs : list A) (w : world)
  : world * result unit :=
  match xs with
  | [] => (w, Ok tt)
  | x :: xs' =>
      match render x with
      | Ok text => print_each render xs' (print text w)
      | Raise e => (w, Raise e)
      end
  end.

(** The text ["{0:.6f},{1:.6f}".format(d['x'], d['z'])]. *)
Definition txt_text (T : textlib) (d : dict) : result string :=
  x ← dict_item d "x";
  z ← dict_item d "z";
  sx ← format_6f T x;
  sz ← format_6f T z;
  Ok (sx +:+ "," +:+ sz).

(** The branch of [main] that prints the records: one element of the
    standard output per [print] and per write of the CSV writer. *)
Definition export_stdout (T : textlib) (f : format) (dicts : list dict) (w : world)
  : world * result unit :=
  match f with
  | Fjson =>
      match json_dump T dicts with
      | Ok text => (print text w, Ok tt)
      | Raise e => (w, Raise e)
      end
  | Fcsv =>
      match dicts with
      | [] => (w, Ok tt)
      | d0 :: _ =>
          let ks := keys d0 in
          print_each (csv_row T ks) dicts (print (csv_header T ks) w)
      end
  | Ftxt => print_each (txt_text T) dicts w
  end.

(** The output file of [path], after the creation of its directory when
    there are several matches. *)
Definition out_target (O : oslib) (a : arguments) (n_matches : nat) (path : string)
    (s : system) : system * string + outcome :=
  if (1 <? n_matches)%nat then
    let out_dir :=
      match out a with
      | None => getcwd O
      | Some o => if isdir O o || endswith o (sep O) then o else o
      end in
    match makedirs out_dir s with
    | inr o => inr o
    | inl s' =>
        let base := splitext O (basename O path) in
        inl (s', path_join O out_dir (base +:+ "_coords." +:+ format_name (fmt a)))
    end
  else
    inl (s, match out a with
            | None => splitext O path +:+ "_coords." +:+ format_name (fmt a)
            | Some o => o
            end).

(** The branch of [main] that writes the records of [path] to a file. *)
Definition export_file (T : textlib) (O : oslib) (a : arguments) (n_matches : nat)
    (path : string) (dicts : list dict) (s : system) : system * result unit + outcome :=
  match out_target O a n_matches path s with
  | inr o => inr o
  | inl (s, out_file) =>
      let '(w, r) :=
        match fmt a with
        | Fjson => write_json T dicts out_file (sys_world s)
        | Fcsv => write_csv T dicts out_file (sys_world s)
        | Ftxt => write_txt T dicts out_file (sys_world s)
        end in
      match r with
      | Ok _ => inl (set_world (print ("Wrote: " +:+ out_file) w) s, Ok tt)
      | Raise e => inl (set_world w s, Raise e)
      end
  end.

(** The loop of [main] over the sorted matches. *)
Fixpoint main_loop (M : libm) (T : textlib) (O : oslib) (a : arguments) (n_matches : nat)
    (paths : list string) (s : system) : system * outcome :=
  match paths with
  | [] => (s, Exit 0)
  | path :: paths' =>
      match getNodes_at M O (sys_world s) path with
      | inr message => main_loop M T O a n_matches paths' (eprint message s)
      | inl nodes =>
          match nodes_to_dicts nodes (walls a) (Z.max 1 (subsample a)) with
          | Raise e => (s, Uncaught e)
          | Ok dicts =>
              if to_stdout a || (bool_decide (out a = None) && (n_matches =? 1)%nat)
              then
                match export_stdout T (fmt a) dicts (sys_world s) with
                | (w, Ok _) => main_loop M T O a n_matches paths' (set_world w s)
                | (w, Raise e) => (set_world w s, Uncaught e)
                end
              else
                match export_file T O a n_matches path dicts s with
                | inl (s', Ok _) => main_loop M T O a n_matches paths' s'
                | inl (s', Raise e) => (s', Uncaught e)
                | inr o => (s, o)
                end
          end
      end
  end.

Definition main (M : libm) (T : textlib) (O : oslib) (a : arguments) (s : system)
  : system * outcome :=
  let matches := glob O (fastlane a) in
  match matches with
  | [] => (eprint ("No files matched: " +:+ fastlane a) s, Exit 2)
  | _ => main_loop M T O a (length matches) (sorted matches) s
  end.

(** ** A sample of the operating system: POSIX paths, three patterns *)

(** The text before and after the last occurrence of [c], when there is
    one. *)
Fixpoint split_last (c : Ascii.ascii) (s : string) : option (string * string) :=
  match s with
  | EmptyString => None
  | String x s' =>
      match split_last c s' with
      | Some (a, b) => Some (String x a, b)
      | None => if Ascii.eqb x c then Some (EmptyString, s') else None
      end
  end.

Definition slash : Ascii.ascii := Ascii.ascii_of_nat 47.
Definition dot : Ascii.ascii := Ascii.ascii_of_nat 46.

Definition all_dots (s : string) : bool :=
  forallb (fun b => Byte.eqb b Byte.x2e) (String.list_byte_of_string s).

Definition posix_basename (p : string) : string :=
  match split_last slash p with
  | Some (_, name) => name
  | None => p
  end.

(** [posixpath.splitext(p)[0]]: the extension starts at the last dot of the
    last component, unless only dots come before it there. *)
Definition posix_splitext (p : string) : string :=
  match split_last dot p with
  | Some (root, ext) =>
      if bool_decide (is_Some (split_last slash ext)) then p
      else if all_dots (posix_basename root) then p
      else root
  | None => p
  end.

Definition posix_join (a b : string) : string :=
  if String.eqb (String.substring 0 1 b) "/" then b
  else if String.eqb a "" || endswith a "/" then a +:+ b
  else a +:+ "/" +:+ b.

Definition sample_str_exn (e : exn) : string :=
  match e with
  | ValueError msg => msg
  | IndexError => "list index out of range"
  | KeyError k => "'" +:+ k +:+ "'"
  | _ => "error"
  end.

Definition oslib_sample : oslib := {|
  glob pattern :=
    if String.eqb pattern "tracks/*.ai" then ["tracks/monza.ai"; "tracks/imola.ai"]
    else if String.eqb pattern "tracks/m*.ai" then ["tracks/mugello.ai"; "tracks/monza.ai"]
    else if String.eqb pattern "one.ai" then ["one.ai"]
    else [];
  getcwd := "/home/user";
  isdir p := false;
  sep := "/";
  splitext := posix_splitext;
  basename := posix_basename;
  path_join := posix_join;
  open_error p := "[Errno 2] No such file or directory: '" +:+ p +:+ "'";
  str_exn := sample_str_exn
|}.

(** A system with [truncated_file] at [tracks/imola.ai], a file of ten
    bytes at [tracks/monza.ai] and a file that ends after the ideal block
    at [one.ai]. *)
Definition sample_system : system := {|
  sys_world :=
    {| files := {[ "tracks/imola.ai" := String.string_of_list_byte truncated_file;
                   "tracks/monza.ai" := String.string_of_list_byte (take 10 sample_file);
                   "one.ai" := String.string_of_list_byte sample_ideal_block ]};
       stdout := [] |};
  sys_stderr := [];
  sys_dirs := ∅
|}.

Definition sample_arguments (pattern : string) (o : option string) (f : format)
    (so : bool) : arguments :=
  {| fastlane := pattern; out := o; fmt := f; walls := false; subsample := 0;
     to_stdout := so |}.

(** ** kristex-app: payloads and senders

    The host application and the network are outside the model: the track
    name and configuration, the telemetry lists and the answers of the
    socket are parameters, and [send_udp_payload] is seen by the payloads
    it is called with. *)

Definition MAX_UDP_PACKET_SIZE : Z := 1024.

Definition TRACK_NODE : string := "track_node".
Definition CARS_INFO : string := "cars_info".
Definition PLAYERS_INFO : string := "players_info".

Record UdpPayload (A : Type) : Type := {
  payload_type : string;
  payload_data : A
}.
Arguments payload_type {A} _.
Arguments payload_data {A} _.

(** The payloads passed to [send_udp_payload] and the lines of [ac.log]. *)
Record sender (A : Type) : Type := {
  payloads : list (UdpPayload (list A));
  sender_log : list string
}.
Arguments payloads {A} _.
Arguments sender_log {A} _.

Definition send_udp_payload {A} (payload : UdpPayload (list A)) (st : sender A) : sender A :=
  {| payloads := payloads st ++ [payload]; sender_log := sender_log st |}.

Definition sender_log_line {A} (line : string) (st : sender A) : sender A :=
  {| payloads := payloads st; sender_log := sender_log st ++ [line] |}.

(** The loop of the two chunked senders: [size] is the length of the
    compact JSON text of an item. *)
Fixpoint chunk_loop {A} (size : A -> Z) (ptype : string) (items chunk : list A)
    (chunk_size : Z) (st : sender A) : list A * sender A :=
  match items with
  | [] => (chunk, st)
  | item :: items' =>
      if MAX_UDP_PACKET_SIZE <? chunk_size + size item
      then chunk_loop size ptype items' [item] (size item)
             (send_udp_payload {| payload_type := ptype; payload_data := chunk |} st)
      else chunk_loop size ptype items' (chunk ++ [item]) (chunk_size + size item) st
  end.

Definition send_udp_chunked {A} (size : A -> Z) (ptype no_data : string) (data : list A)
    (st : sender A) : sender A :=
  match data with
  | [] => sender_log_line no_data st
  | _ =>
      let '(chunk, st) := chunk_loop size ptype data [] 0 st in
      match chunk with
      | [] => st
      | _ => send_udp_payload {| payload_type := ptype; payload_data := chunk |} st
      end
  end.

(** [send_cars_telemetry_udp_chunked], on the list that
    [get_all_cars_telemetry] returns. *)
Definition send_cars_telemetry_udp_chunked {A} (size : A -> Z) (telemetry_data : list A)
    (st : sender A) : sender A :=
  send_udp_chunked size CARS_INFO "[Kristex] No telemetry data to send." telemetry_data st.

(** [send_players_info_udp_chunked], on the list that
    [get_all_players_info] returns. *)
Definition send_players_info_udp_chunked {A} (size : A -> Z) (players_info : list A)
    (st : sender A) : sender A :=
  send_udp_chunked size PLAYERS_INFO "[Kristex] No players data to send." players_info st.

(** The total size of a chunk. *)
Definition chunk_total {A} (size : A -> Z) (chunk : list A) : Z :=
  foldr (fun item acc => size item + acc) 0 chunk.

(** The socket of [_udp_stream_dicts]: whether it can be created, and
    whether [send] and [sendto] succeed for the record at each position. *)
Record network : Type := {
  socket_ok : bool;
  socket_error : string;
  send_ok : nat -> bool;
  sendto_ok : nat -> bool
}.

(** The lines that the socket accepted and the lines of [ac.log]. *)
Record stream : Type := {
  delivered : list string;
  stream_log : list string
}.

Definition stream_log_line (line : string) (st : stream) : stream :=
  {| delivered := delivered st; stream_log := stream_log st ++ [line] |}.

Definition deliver (line : string) (st : stream) : stream :=
  {| delivered := delivered st ++ [line]; stream_log := stream_log st |}.

(** The loop over [enumerate(dicts)], from position [i]; [to_json_line]
    gives the line of a payload. *)
Fixpoint stream_loop (to_json_line : UdpPayload dict -> result string) (N : network)
    (i : nat) (dicts : list dict) (st : stream) : stream :=
  match dicts with
  | [] => st
  | d :: dicts' =>
      let st :=
        match to_json_line {| payload_type := TRACK_NODE; payload_data := d |} with
        | Ok line =>
            if send_ok N i then deliver line st
            else if sendto_ok N i then deliver line st
            else stream_log_line "[Kristex] Error sending node" st
        | Raise _ => stream_log_line "[Kristex] Error sending node" st
        end in
      stream_loop to_json_line N (S i) dicts' st
  end.

Definition _udp_stream_dicts (to_json_line : UdpPayload dict -> result string)
    (N : network) (dicts : list dict) (st : stream) : stream :=
  match dicts with
  | [] => stream_log_line "[Kristex] No dicts to send." st
  | _ =>
      if socket_ok N then
        let st := stream_log_line
                    "[Kristex] Streaming nodes over UDP to 127.0.0.1:22566 ..." st in
        let st := stream_loop to_json_line N 0 dicts st in
        stream_log_line "[Kristex] Finished streaming nodes." st
      else stream_log_line ("[Kristex] UDP streaming failed: " +:+ socket_error N) st
  end.

(** The globals [_prepared_track_dicts] and [_prepare_error], with the
    stream. *)
Record prepared : Type := {
  _prepared_track_dicts : option (list dict);
  _prepare_error : option string;
  prepared_stream : stream
}.

Definition set_stream (st : stream) (p : prepared) : prepared :=
  {| _prepared_track_dicts := _prepared_track_dicts p;
     _prepare_error := _prepare_error p; prepared_stream := st |}.

(** The path [ai_file] of the fast lane of a track. *)
Definition fast_lane_path (O : oslib) (track_name track_config : string) : string :=
  let ai_dir :=
    if negb (String.eqb track_config "")
    then path_join O (path_join O (path_join O (path_join O "content" "tracks") track_name)
                        track_config) "ai"
    else path_join O (path_join O (path_join O "content" "tracks") track_name) "ai" in
  path_join O ai_dir "fast_lane.ai".

(** [_prepare_and_send_track_thread], for the track [track_name] in the
    configuration [track_config], on the files of [w]. *)
Definition _prepare_and_send_track_thread (M : libm) (O : oslib)
    (to_json_line : UdpPayload dict -> result string) (N : network)
    (track_name track_config : string) (w : world) (p : prepared) : prepared :=
  let log line p := set_stream (stream_log_line line (prepared_stream p)) p in
  let p := log ("[Kristex] track_name: '" +:+ track_name +:+ "' ...") p in
  let p := log ("[Kristex] track_config: '" +:+ track_config +:+ "' ...") p in
  let ai_file := fast_lane_path O track_name track_config in
  let p := log ("[Kristex] Loading fast_lane.ai: " +:+ ai_file) p in
  let failed message p :=
    log ("[Kristex] Preparing track failed: " +:+ message)
      {| _prepared_track_dicts := None; _prepare_error := Some message;
         prepared_stream := prepared_stream p |} in
  match getNodes_at M O w ai_file with
  | inr message => failed message p
  | inl nodes =>
      match nodes_to_dicts nodes false 5 with
      | Raise e => failed (str_exn O e) p
      | Ok dicts =>
          let p := {| _prepared_track_dicts := Some dicts; _prepare_error := None;
                      prepared_stream := prepared_stream p |} in
          let p := log ("[Kristex] Prepared " +:+ pretty (length dicts) +:+ " nodes from '"
                        +:+ ai_file +:+ "'.") p in
          set_stream (_udp_stream_dicts to_json_line N dicts (prepared_stream p)) p
      end
  end.

(** A chunk within the packet size by the sizes of its items, or of at
    most one item. *)
Definition chunk_fits {A} (size : A -> Z) (chunk : list A) : Prop :=
  chunk_total size chunk <= MAX_UDP_PACKET_SIZE \/ (length chunk <= 1)%nat.

(** ** Samples for the senders *)

(** Items that are their own size. *)
Definition sample_items : list Z := [600; 500; 2000; 10].
Definition own_size (item : Z) : Z := item.

Definition empty_sender : sender Z := {| payloads := []; sender_log := [] |}.

(** A socket on which [send] fails on the odd positions and [sendto]
    always fails. *)
Definition network_sample : network := {|
  socket_ok := true;
  socket_error := "";
  send_ok i := Nat.even i;
  sendto_ok i := false
|}.

(** A socket that accepts everything. *)
Definition network_up : network := {|
  socket_ok := true;
  socket_error := "";
  send_ok i := true;
  sendto_ok i := true
|}.

(** The line of a payload, reduced to the index of its record. *)
Definition sample_json_line (payload : UdpPayload dict) : result string :=
  match dict_get (payload_data payload) "index" with
  | Some (VInt n) => Ok (payload_type payload +:+ " " +:+ pretty n)
  | _ => Raise TypeError
  end.

Definition empty_stream : stream := {| delivered := []; stream_log := [] |}.

Definition empty_prepared : prepared :=
  {| _prepared_track_dicts := None; _prepare_error := None;
     prepared_stream := empty_stream |}.

(** The output file of [path] when there are several matches. *)
Definition batch_target (O : oslib) (a : arguments) (path : string) : string :=
  path_join O (match out a with None => getcwd O | Some o => o end)
    (splitext O (basename O path) +:+ "_coords." +:+ format_name (fmt a)).

(** * Properties *)

(** ** Sequences *)

Lemma py_index_nat {A} (l : list A) (i : nat) (a : A) :
  l !! i = Some a -> py_index l (Z.of_nat i) = Ok a.
Proof.
  intros H. pose proof (lookup_lt_Some _ _ _ H) as Hlt.
  unfold py_index.
  destruct (Z.ltb_spec (Z.of_nat i) 0) as [Hn|_]; [lia|].
  destruct (Z.ltb_spec (Z.of_nat i) 0) as [Hn|_]; [lia|].
  destruct (Z.leb_spec (Z.of_nat (length l)) (Z.of_nat i)) as [Hn|_]; [lia|].
  simpl. rewrite Nat2Z.id, H. reflexivity.
Qed.

Lemma py_index_ge {A} (l : list A) (i : Z) :
  Z.of_nat (length l) <= i -> py_index l i = Raise IndexError.
Proof.
  intros H. unfold py_index.
  destruct (Z.ltb_spec i 0) as [Hn|_]; [lia|].
  destruct (Z.ltb_spec i 0) as [Hn|_]; [lia|].
  destruct (Z.leb_spec (Z.of_nat (length l)) i) as [_|Hn]; [|lia].
  reflexivity.
Qed.

Lemma py_index_nil {A} (i : Z) : py_index (@nil A) i = Raise IndexError.
Proof.
  destruct (Z.lt_ge_cases i 0) as [Hn|Hp]; [|apply py_index_ge; simpl; lia].
  unfold py_index. simpl length.
  destruct (Z.ltb_spec i 0) as [_|?]; [|lia].
  destruct (Z.ltb_spec (i + Z.of_nat 0) 0) as [_|?]; [reflexivity|lia].
Qed.

Lemma py_index_raise {A} (l : list A) (i : Z) (e : exn) :
  py_index l i = Raise e -> e = IndexError.
Proof.
  unfold py_index. intros H.
  destruct (_ || _); [congruence|]. destruct (l !! _); congruence.
Qed.

(** A successful lookup at a non-negative index is the list's element. *)
Lemma py_index_inv {A} (l : list A) (i : Z) (a : A) :
  0 <= i -> py_index l i = Ok a -> l !! Z.to_nat i = Some a.
Proof.
  intros Hi. unfold py_index.
  destruct (Z.ltb_spec i 0) as [Hn|_]; [lia|].
  destruct (_ || _); [discriminate|].
  destruct (l !! Z.to_nat i); [|discriminate]. congruence.
Qed.

Lemma py_index_lt {A} (l : list A) (i : Z) :
  0 <= i < Z.of_nat (length l) -> exists a, py_index l i = Ok a.
Proof.
  intros Hi. destruct (lookup_lt_is_Some_2 l (Z.to_nat i)) as [a Ha]; [lia|].
  exists a. rewrite <- (Z2Nat.id i) by lia. apply py_index_nat, Ha.
Qed.

(** ** The parse, stage by stage *)

Lemma read_rawIdeal_length (n : nat) (buffer buffer' : list Byte.byte) (rawIdeal : list ideal) :
  read_rawIdeal n buffer = Ok (rawIdeal, buffer') -> length rawIdeal = n.
Proof.
  revert buffer buffer' rawIdeal.
  induction n as [|n IH]; intros buffer buffer' rawIdeal; simpl.
  - intros [= <- _]. reflexivity.
  - destruct (_ <? _)%nat; [discriminate|].
    destruct (read_rawIdeal n (drop 20 buffer)) as [[l b]|e] eqn:E; simpl; [|discriminate].
    intros [= <- _]. simpl. f_equal. eapply IH, E.
Qed.

Lemma ideal_block_length (content buffer : list Byte.byte) (len : Z) (rawIdeal : list ideal) :
  ideal_block content = Ok (len, rawIdeal, buffer) -> length rawIdeal = Z.to_nat len.
Proof.
  unfold ideal_block, read.
  destruct (_ <? _)%nat; [discriminate|].
  destruct (unpack_4i _) as [[[header len'] lapTime] sampleCount].
  destruct (read_rawIdeal _ _) as [[l b]|e] eqn:E; simpl; [|discriminate].
  intros [= <- <- _]. eapply read_rawIdeal_length, E.
Qed.

(** [parse_body] is the header and ideal block, then [extraCount], then
    the detail loop. *)
Lemma parse_body_stages (M : libm) (content : list Byte.byte) :
  parse_body M content =
  '(len, rawIdeal, buffer) ← ideal_block content;
  detail_loop M rawIdeal len (Z.to_nat (read_extraCount buffer).1) 0 (read_extraCount buffer).2.
Proof.
  unfold parse_body, ideal_block, read.
  destruct (_ <? _)%nat; [reflexivity|].
  destruct (unpack_4i _) as [[[header len] lapTime] sampleCount].
  destruct (read_rawIdeal _ _) as [[l b]|e]; simpl; [|reflexivity].
  destruct (read_extraCount b) as [extraCount b']. reflexivity.
Qed.

Section DetailLoop.
Variable M : libm.
Variable rawIdeal : list ideal.
Variable len : Z.

Lemma detail_loop_step (n : nat) (i : Z) (buffer : list Byte.byte) :
  detail_loop M rawIdeal len (S n) i buffer =
  prev ← py_index rawIdeal (prev_index len i);
  match detail_node M rawIdeal prev (take 72 buffer) i with
  | Ok node => nodes ← detail_loop M rawIdeal len n (i + 1) (drop 72 buffer);
               Ok (node :: nodes)
  | Raise _ => detail_loop M rawIdeal len n (i + 1) (drop 72 buffer)
  end.
Proof. unfold prev_index. simpl. destruct (0 <? i); reflexivity. Qed.

Lemma detail_node_raise (prev : ideal) (bs : list Byte.byte) (i : Z) (e : exn) :
  detail_node M rawIdeal prev bs i = Raise e -> py_index rawIdeal i = Raise IndexError.
Proof.
  unfold detail_node. destruct (py_index rawIdeal i) eqn:E; simpl; [discriminate|].
  intros _. f_equal. eapply py_index_raise, E.
Qed.

(** Within the ideal block every iteration appends a node. *)
Lemma detail_loop_count (n : nat) : forall (i : Z) (buffer : list Byte.byte),
  Z.of_nat (length rawIdeal) = len -> 0 <= i -> i + Z.of_nat n <= len ->
  exists nodes, detail_loop M rawIdeal len n i buffer = Ok nodes /\ length nodes = n.
Proof.
  induction n as [|n IH]; intros i buffer HL Hi Hn.
  - exists []. split; reflexivity.
  - rewrite detail_loop_step.
    destruct (py_index_lt rawIdeal (prev_index len i)) as [prev ->].
    { unfold prev_index. destruct (Z.ltb_spec 0 i); lia. }
    destruct (py_index_lt rawIdeal i) as [cur Hcur]; [lia|].
    simpl. unfold detail_node. rewrite Hcur. simpl.
    destruct (IH (i + 1) (drop 72 buffer)) as (nodes & -> & Hlen); [lia..|].
    simpl. eexists. split; [reflexivity|]. simpl. f_equal. exact Hlen.
Qed.

(** The iteration right after the ideal block finds its previous sample
    and is skipped by the inner [try]. *)
Lemma detail_loop_one_past (n : nat) : forall (i : Z) (buffer : list Byte.byte),
  Z.of_nat (length rawIdeal) = len -> 1 <= len -> 0 <= i ->
  i + Z.of_nat (S n) = len + 1 ->
  exists nodes, detail_loop M rawIdeal len (S n) i buffer = Ok nodes /\
                Z.of_nat (length nodes) = len - i.
Proof.
  induction n as [|n IH]; intros i buffer HL Hlen Hi Hn.
  - assert (i = len) as -> by lia.
    rewrite detail_loop_step.
    destruct (py_index_lt rawIdeal (prev_index len len)) as [prev ->].
    { unfold prev_index. destruct (Z.ltb_spec 0 len); lia. }
    unfold detail_node. rewrite py_index_ge by lia.
    exists []. split; [reflexivity|]. simpl. lia.
  - destruct (IH (i + 1) (drop 72 buffer)) as (nodes & Hloop & Hnodes); [lia..|].
    rewrite detail_loop_step, Hloop.
    destruct (py_index_lt rawIdeal (prev_index len i)) as [prev ->].
    { unfold prev_index. destruct (Z.ltb_spec 0 i); lia. }
    destruct (py_index_lt rawIdeal i) as [cur Hcur]; [lia|].
    unfold detail_node. rewrite Hcur.
    eexists. split; [reflexivity|]. simpl length. lia.
Qed.

(** Every node of a successful loop is the one built at its own index:
    nodes are only skipped after the last one. *)
Lemma detail_loop_nodes (n : nat) : forall (i : Z) (buffer : list Byte.byte)
    (nodes : list TrackDetailNode) (k : nat) (node : TrackDetailNode),
  0 <= i ->
  detail_loop M rawIdeal len n i buffer = Ok nodes ->
  nodes !! k = Some node ->
  node_at M rawIdeal len (i + Z.of_nat k) (detail_bytes buffer k) = Ok node.
Proof.
  induction n as [|n IH]; intros i buffer nodes k node Hi.
  - intros [= <-]. rewrite lookup_nil. discriminate.
  - rewrite detail_loop_step.
    destruct (py_index rawIdeal (prev_index len i)) as [prev|e] eqn:Hprev; simpl;
      [|discriminate].
    destruct (detail_node M rawIdeal prev (take 72 buffer) i) as [node0|e] eqn:Hnode.
    + destruct (detail_loop M rawIdeal len n (i + 1) (drop 72 buffer))
        as [rest|e] eqn:Hrest; simpl; [|discriminate].
      intros [= <-]. destruct k as [|k]; simpl.
      * intros [= <-]. unfold node_at, detail_bytes.
        rewrite Z.add_0_r, Hprev. simpl. exact Hnode.
      * intros Hk. assert (0 <= i + 1) as Hi' by lia.
        specialize (IH _ _ _ _ _ Hi' Hrest Hk).
        unfold detail_bytes in *. rewrite drop_drop in IH.
        replace (72 * S k)%nat with (72 + 72 * k)%nat by lia.
        replace (i + Z.of_nat (S k)) with (i + 1 + Z.of_nat k) by lia. exact IH.
    + intros Hrest. apply detail_node_raise in Hnode.
      destruct n as [|n].
      * simpl in Hrest. injection Hrest as <-. rewrite lookup_nil. discriminate.
      * rewrite detail_loop_step in Hrest. unfold prev_index in Hrest.
        destruct (Z.ltb_spec 0 (i + 1)) as [_|?]; [|lia].
        replace (i + 1 - 1) with i in Hrest by lia.
        rewrite Hnode in Hrest. discriminate.
Qed.

(** The lookup of the previous sample is outside the inner [try]: two
    iterations past the ideal block, or one iteration on an empty block,
    and the loop raises. *)
Lemma detail_loop_overrun (n : nat) : forall (i : Z) (buffer : list Byte.byte),
  0 <= i <= Z.of_nat (length rawIdeal) + 1 ->
  Z.of_nat (length rawIdeal) + 2 <= i + Z.of_nat n ->
  detail_loop M rawIdeal len n i buffer = Raise IndexError.
Proof.
  induction n as [|n IH]; intros i buffer Hi Hn; [lia|].
  rewrite detail_loop_step.
  destruct (py_index rawIdeal (prev_index len i)) as [prev|e] eqn:Hprev; simpl.
  - assert (i <= Z.of_nat (length rawIdeal)) as Hle.
    { destruct (Z.le_gt_cases i (Z.of_nat (length rawIdeal))) as [|Hgt]; [assumption|].
      unfold prev_index in Hprev. destruct (Z.ltb_spec 0 i); [|lia].
      rewrite py_index_ge in Hprev by lia. discriminate. }
    rewrite (IH (i + 1) (drop 72 buffer)) by lia.
    destruct (detail_node _ _ _ _ _); reflexivity.
  - f_equal. eapply py_index_raise, Hprev.
Qed.

End DetailLoop.

Lemma detail_loop_empty_block (M : libm) (len : Z) (n : nat) (buffer : list Byte.byte) :
  detail_loop M [] len (S n) 0 buffer = Raise IndexError.
Proof.
  rewrite detail_loop_step, py_index_nil. reflexivity.
Qed.

Lemma getNodes_stages (M : libm) (content buffer : list Byte.byte) (len : Z)
    (rawIdeal : list ideal) :
  ideal_block content = Ok (len, rawIdeal, buffer) ->
  parse_body M content =
  detail_loop M rawIdeal len (Z.to_nat (read_extraCount buffer).1) 0 (read_extraCount buffer).2.
Proof.
  intros H. rewrite parse_body_stages, H. reflexivity.
Qed.

Lemma getNodes_Ok (M : libm) (content : list Byte.byte) (nodes : list TrackDetailNode) :
  getNodesFromFastLane M content = Ok nodes <-> parse_body M content = Ok nodes.
Proof.
  unfold getNodesFromFastLane. destruct (parse_body M content); split; congruence.
Qed.

(** ** Direction *)

(** C1: the direction of a node built from the current sample [cur] and the
    previous sample [prev] is [-degrees(atan2(prev.z - cur.y, cur.x - prev.x))]:
    the first argument of atan2 takes the previous sample's z and the
    current sample's y. *)
Theorem direction_cross_axis (M : libm) (cur prev : ideal) (rawDetail : list float) :
  direction (TrackDetailNode_init M cur prev rawDetail) =
  (- math_degrees (math_atan2 M (ideal_2 prev - ideal_1 cur)
                                (ideal_0 cur - ideal_0 prev)))%float.
Proof.
  unfold TrackDetailNode_init.
  destruct (try_except _ _) as [[wl wr] tc]. reflexivity.
Qed.

(** The scenario of the specification: one node, heading of 180 degrees (the
    code's sign gives -180), the left wall on the position, the right wall
    3.0 along its heading. *)
Example scenario_node :
  getNodesFromFastLane libm_sample sample_file
  = Ok [{| id := 100; position := (0, 0, 0)%float; distance := 0%float;
           direction := (-180)%float;
           wallLeft := Some (0, 0, 0)%float;
           wallRight := Some (0x1.a79394c9e8a0ap-53, 0, -3)%float;
           trackCenter := (0x1.a79394c9e8a0ap-54, 0, -1.5)%float |}].
Proof. vm_compute. reflexivity. Qed.

(** ** Node count and neighbours *)

(** C3: when the header and the ideal block parse and
    [0 <= extraCount <= length], the parse succeeds with exactly
    [extraCount] nodes, each built from the bytes of its own detail record
    (zeros when fewer than 72 bytes were left). *)
Theorem node_count_is_extraCount (M : libm) (content buffer : list Byte.byte)
    (len : Z) (rawIdeal : list ideal) :
  ideal_block content = Ok (len, rawIdeal, buffer) ->
  0 <= (read_extraCount buffer).1 <= len ->
  exists nodes,
    getNodesFromFastLane M content = Ok nodes /\
    Z.of_nat (length nodes) = (read_extraCount buffer).1 /\
    forall (k : nat) (node : TrackDetailNode), nodes !! k = Some node ->
      node_at M rawIdeal len (Z.of_nat k) (detail_bytes (read_extraCount buffer).2 k) = Ok node.
Proof.
  intros Hblock Hcount.
  pose proof (ideal_block_length _ _ _ _ Hblock) as HL.
  destruct (detail_loop_count M rawIdeal len (Z.to_nat (read_extraCount buffer).1) 0
              (read_extraCount buffer).2) as (nodes & Hloop & Hlen); [lia..|].
  exists nodes. split; [|split].
  - apply getNodes_Ok. rewrite (getNodes_stages M _ _ _ _ Hblock). exact Hloop.
  - lia.
  - intros k node Hk.
    apply (detail_loop_nodes M rawIdeal len _ 0 _ nodes k node ltac:(lia) Hloop Hk).
Qed.

Lemma node_count_is_extraCount_witness :
  exists nodes,
    getNodesFromFastLane libm_sample sample_file = Ok nodes /\
    Z.of_nat (length nodes) = 1 /\
    forall (k : nat) (node : TrackDetailNode), nodes !! k = Some node ->
      node_at libm_sample sample_rawIdeal 2 (Z.of_nat k) (detail_bytes sample_detail k)
      = Ok node.
Proof.
  apply (node_count_is_extraCount libm_sample sample_file (pack_words [1] ++ sample_detail) 2
           sample_rawIdeal).
  - vm_compute. reflexivity.
  - vm_compute. split; discriminate.
Defined.

(** A truncated detail record is decoded as eighteen zeros. *)
Lemma decode_rawDetail_short (bs : list Byte.byte) :
  (length bs < 72)%nat -> decode_rawDetail bs = replicate 18 0%float.
Proof.
  intros H. unfold decode_rawDetail.
  destruct (Nat.ltb_spec (length bs) 72); [reflexivity|lia].
Qed.

(** C5: with [length >= 1], node [i] of a successful parse is built from
    [IdealSample[i]] and, as previous sample, from [IdealSample[i-1]] when
    [i > 0] and from [IdealSample[length-1]] when [i = 0]. *)
Theorem previous_sample_wraps (M : libm) (content buffer : list Byte.byte) (len : Z)
    (rawIdeal : list ideal) (nodes : list TrackDetailNode) (i : nat)
    (node : TrackDetailNode) :
  ideal_block content = Ok (len, rawIdeal, buffer) ->
  1 <= len ->
  getNodesFromFastLane M content = Ok nodes ->
  nodes !! i = Some node ->
  exists cur prev : ideal,
    rawIdeal !! i = Some cur /\
    rawIdeal !! (match i with O => Z.to_nat (len - 1) | S j => j end) = Some prev /\
    node = TrackDetailNode_init M cur prev
             (decode_rawDetail (detail_bytes (read_extraCount buffer).2 i)).
Proof.
  intros Hblock Hlen Hparse Hi.
  apply getNodes_Ok in Hparse. rewrite (getNodes_stages M _ _ _ _ Hblock) in Hparse.
  pose proof (detail_loop_nodes M rawIdeal len _ 0 _ nodes i node ltac:(lia) Hparse Hi)
    as Hnode.
  unfold node_at in Hnode. rewrite Z.add_0_l in Hnode.
  destruct (py_index rawIdeal (prev_index len (Z.of_nat i))) as [prev|e] eqn:Hprev;
    simpl in Hnode; [|discriminate].
  unfold detail_node in Hnode.
  destruct (py_index rawIdeal (Z.of_nat i)) as [cur|e] eqn:Hcur; simpl in Hnode;
    [|discriminate].
  injection Hnode as <-.
  apply py_index_inv in Hcur; [|lia]. rewrite Nat2Z.id in Hcur.
  exists cur, prev. split; [exact Hcur|]. split; [|reflexivity].
  unfold prev_index in Hprev. destruct i as [|j].
  - simpl in Hprev. apply py_index_inv in Hprev; [exact Hprev|lia].
  - destruct (Z.ltb_spec 0 (Z.of_nat (S j))) as [_|?]; [|lia].
    apply py_index_inv in Hprev; [|lia].
    replace (Z.to_nat (Z.of_nat (S j) - 1)) with j in Hprev by lia. exact Hprev.
Qed.

Lemma previous_sample_wraps_witness :
  exists cur prev : ideal,
    sample_rawIdeal !! 0%nat = Some cur /\
    sample_rawIdeal !! 1%nat = Some prev /\
    TrackDetailNode_init libm_sample (0%float, 0%float, 0%float, 0%float, 100) (10%float, 0%float, 0%float, 5%float, 101)
      (decode_rawDetail sample_detail)
    = TrackDetailNode_init libm_sample cur prev (decode_rawDetail sample_detail).
Proof.
  apply (previous_sample_wraps libm_sample sample_file (pack_words [1] ++ sample_detail) 2
           sample_rawIdeal
           [TrackDetailNode_init libm_sample (0%float, 0%float, 0%float, 0%float, 100) (10%float, 0%float, 0%float, 5%float, 101)
              (decode_rawDetail sample_detail)] 0).
  - vm_compute. reflexivity.
  - lia.
  - vm_compute. reflexivity.
  - reflexivity.
Defined.

(** ** A file that ends after the ideal block *)

(** C7: when the file ends before the four bytes of [extraCount] (right
    after the ideal block, or within the field), [extraCount] is 0 and the
    parse succeeds with no node. *)
Theorem missing_extraCount_parses (M : libm) (content buffer : list Byte.byte) (len : Z)
    (rawIdeal : list ideal) :
  ideal_block content = Ok (len, rawIdeal, buffer) ->
  (length buffer < 4)%nat ->
  (read_extraCount buffer).1 = 0 /\ getNodesFromFastLane M content = Ok [].
Proof.
  intros Hblock Hshort.
  assert ((read_extraCount buffer).1 = 0) as H0.
  { unfold read_extraCount, read. rewrite length_take.
    destruct (Nat.ltb_spec (4 `min` length buffer) 4); [reflexivity|lia]. }
  split; [exact H0|].
  apply getNodes_Ok. rewrite (getNodes_stages M _ _ _ _ Hblock), H0. reflexivity.
Qed.

Lemma missing_extraCount_parses_witness :
  (read_extraCount []).1 = 0 /\ getNodesFromFastLane libm_sample sample_ideal_block = Ok [].
Proof.
  apply (missing_extraCount_parses libm_sample sample_ideal_block [] 2 sample_rawIdeal).
  - vm_compute. reflexivity.
  - simpl. lia.
Defined.

(** ** More detail records announced than ideal samples *)

(** C10: the code does not skip the records past the ideal block.  The
    previous sample is looked up before the inner [try]: with [extraCount]
    at least [length + 2], or at least 1 on an empty ideal block, the
    lookup raises and the whole parse fails. *)
Theorem extraCount_overrun_fails (M : libm) (content buffer : list Byte.byte) (len : Z)
    (rawIdeal : list ideal) :
  ideal_block content = Ok (len, rawIdeal, buffer) ->
  Z.max len 0 + 2 <= (read_extraCount buffer).1 \/
    (len <= 0 /\ 1 <= (read_extraCount buffer).1) ->
  getNodesFromFastLane M content = Raise (RuntimeError IndexError).
Proof.
  intros Hblock Hover.
  pose proof (ideal_block_length _ _ _ _ Hblock) as HL.
  unfold getNodesFromFastLane. rewrite (getNodes_stages M _ _ _ _ Hblock).
  destruct Hover as [Hover|[Hlen Hone]].
  - rewrite detail_loop_overrun; [reflexivity|lia|lia].
  - destruct rawIdeal; [|simpl in HL; lia].
    destruct (Z.to_nat (read_extraCount buffer).1) as [|n] eqn:E; [lia|].
    rewrite detail_loop_empty_block. reflexivity.
Qed.

Lemma extraCount_overrun_fails_witness :
  getNodesFromFastLane libm_sample (sample_ideal_block ++ pack_words [4])
  = Raise (RuntimeError IndexError).
Proof.
  apply (extraCount_overrun_fails libm_sample (sample_ideal_block ++ pack_words [4])
           (pack_words [4]) 2
           sample_rawIdeal).
  - vm_compute. reflexivity.
  - left. vm_compute. discriminate.
Defined.

(** Up to one record past the ideal block the parse succeeds, with
    [min(extraCount, length)] nodes. *)
Lemma extraCount_one_past_succeeds (M : libm) (content buffer : list Byte.byte) (len : Z)
    (rawIdeal : list ideal) :
  ideal_block content = Ok (len, rawIdeal, buffer) ->
  1 <= len ->
  0 <= (read_extraCount buffer).1 <= len + 1 ->
  exists nodes,
    getNodesFromFastLane M content = Ok nodes /\
    Z.of_nat (length nodes) = Z.min (read_extraCount buffer).1 len.
Proof.
  intros Hblock Hlen Hcount.
  pose proof (ideal_block_length _ _ _ _ Hblock) as HL.
  destruct (Z.le_gt_cases (read_extraCount buffer).1 len) as [Hle|Hgt].
  - destruct (detail_loop_count M rawIdeal len (Z.to_nat (read_extraCount buffer).1) 0
                (read_extraCount buffer).2) as (nodes & Hloop & Hn); [lia..|].
    exists nodes. split; [|lia].
    apply getNodes_Ok. rewrite (getNodes_stages M _ _ _ _ Hblock). exact Hloop.
  - destruct (Z.to_nat (read_extraCount buffer).1) as [|n] eqn:En; [lia|].
    destruct (detail_loop_one_past M rawIdeal len n 0 (read_extraCount buffer).2)
      as (nodes & Hloop & Hn); [lia..|].
    exists nodes. split; [|lia].
    apply getNodes_Ok. rewrite (getNodes_stages M _ _ _ _ Hblock), En. exact Hloop.
Qed.

Example one_past_is_skipped :
  length <$> getNodesFromFastLane libm_sample (sample_ideal_block ++ pack_words [3])
  = Ok 2%nat.
Proof. vm_compute. reflexivity. Qed.

(** ** Floats *)

Lemma opp_involutive (x : float) : (- - x)%float = x.
Proof.
  apply Prim2SF_inj. rewrite !opp_spec.
  destruct (Prim2SF x) as [s|s| |s m e]; simpl; rewrite ?negb_involutive; reflexivity.
Qed.

Lemma SFeqb_refl (x : spec_float) : x <> S754_nan -> SFeqb x x = true.
Proof.
  intros Hx. unfold SFeqb.
  destruct x as [s|s| |s m e]; simpl; try reflexivity.
  - destruct s; reflexivity.
  - congruence.
  - rewrite Z.compare_refl.
    change (Pos.compare_cont Eq m m) with (m ?= m)%positive.
    rewrite Pos.compare_refl. destruct s; reflexivity.
Qed.

Lemma is_nan_spec (x : float) : is_nan x = false -> Prim2SF x <> S754_nan.
Proof.
  unfold is_nan. rewrite FloatAxioms.eqb_spec. intros H E. rewrite E in H. discriminate.
Qed.

(** A finite float is a zero or a finite number. *)
Lemma is_finite_spec (x : float) :
  is_finite x = true ->
  (exists s, Prim2SF x = S754_zero s) \/ (exists s m e, Prim2SF x = S754_finite s m e).
Proof.
  unfold is_finite, is_nan, is_infinity. rewrite !FloatAxioms.eqb_spec, abs_spec.
  destruct (Prim2SF x) as [s|s| |s m e]; eauto.
  - intros H. exfalso. revert H. destruct s; vm_compute; discriminate.
  - intros H. exfalso. revert H. vm_compute. discriminate.
Qed.

Lemma mul_zero_finite (c : float) :
  is_finite c = true -> exists s, Prim2SF (c * 0)%float = S754_zero s.
Proof.
  intros H. rewrite mul_spec.
  change (Prim2SF 0) with (S754_zero false).
  destruct (is_finite_spec c H) as [[s ->]|(s & m & e & ->)]; eexists; reflexivity.
Qed.

(** Adding or subtracting a zero leaves a number numerically unchanged. *)
Lemma add_zero_eqb (x z : float) (s : bool) :
  Prim2SF z = S754_zero s -> is_nan x = false -> (x + z =? x)%float = true.
Proof.
  intros Hz Hx. apply is_nan_spec in Hx. rewrite FloatAxioms.eqb_spec, add_spec, Hz.
  destruct (Prim2SF x) as [sx|sx| |sx m e] eqn:E; try congruence.
  - destruct sx, s; reflexivity.
  - apply SFeqb_refl. discriminate.
  - apply SFeqb_refl. discriminate.
Qed.

Lemma sub_zero_eqb (x z : float) (s : bool) :
  Prim2SF z = S754_zero s -> is_nan x = false -> (x - z =? x)%float = true.
Proof.
  intros Hz Hx. apply is_nan_spec in Hx. rewrite FloatAxioms.eqb_spec, sub_spec, Hz.
  destruct (Prim2SF x) as [sx|sx| |sx m e] eqn:E; try congruence.
  - destruct sx, s; reflexivity.
  - apply SFeqb_refl. discriminate.
  - apply SFeqb_refl. discriminate.
Qed.

(** ** The transform *)

(** All the cases of a node: its position, and each wall there or not. *)
Ltac node_cases n :=
  destruct n as [? [[? ?] ?] ? ? [[[? ?] ?]|] [[[? ?] ?]|] ?].

Lemma node_dict_index (idx : Z) (n : TrackDetailNode) (include_walls : bool) :
  dict_get (node_dict idx n include_walls) "index" = Some (VInt idx).
Proof.
  node_cases n; destruct include_walls; reflexivity.
Qed.

Lemma node_dict_position (idx : Z) (n : TrackDetailNode) (include_walls : bool) :
  dict_point (node_dict idx n include_walls) "x" "y" "z"
  = Some (point_values (rotate (position n))).
Proof.
  node_cases n; destruct include_walls; reflexivity.
Qed.

Lemma node_dict_wallLeft (idx : Z) (n : TrackDetailNode) :
  dict_point (node_dict idx n true) "wallLeft_x" "wallLeft_y" "wallLeft_z"
  = Some (wall_values (rotate <$> wallLeft n)).
Proof.
  node_cases n; reflexivity.
Qed.

Lemma node_dict_wallRight (idx : Z) (n : TrackDetailNode) :
  dict_point (node_dict idx n true) "wallRight_x" "wallRight_y" "wallRight_z"
  = Some (wall_values (rotate <$> wallRight n)).
Proof.
  node_cases n; reflexivity.
Qed.

(** C9: every point of a record is rotated by the same map
    [(x, y, z) -> (z, y, -x)]: the position, with or without walls, and
    both wall points when they are present; two rotations give
    [(-x, y, -z)] and four give the point back. *)
Theorem one_rotation_for_every_point (idx : Z) (n : TrackDetailNode)
    (include_walls : bool) (p : vec3) :
  dict_point (node_dict idx n include_walls) "x" "y" "z"
    = Some (point_values (rotate (position n))) /\
  dict_point (node_dict idx n true) "wallLeft_x" "wallLeft_y" "wallLeft_z"
    = Some (wall_values (rotate <$> wallLeft n)) /\
  dict_point (node_dict idx n true) "wallRight_x" "wallRight_y" "wallRight_z"
    = Some (wall_values (rotate <$> wallRight n)) /\
  rotate p = (vec_2 p, vec_1 p, - vec_0 p)%float /\
  rotate (rotate p) = (- vec_0 p, vec_1 p, - vec_2 p)%float /\
  rotate (rotate (rotate (rotate p))) = p.
Proof.
  split; [apply node_dict_position|].
  split; [apply node_dict_wallLeft|].
  split; [apply node_dict_wallRight|].
  destruct p as [[x y] z]. simpl. rewrite !opp_involutive. auto.
Qed.

Lemma retained_index_skip (idx N : Z) (k : nat) :
  1 <= N -> idx mod N <> 0 ->
  retained_index (idx + 1) N k = retained_index idx N k /\
  idx + 1 <= retained_index idx N k.
Proof.
  intros HN Hr. unfold retained_index.
  pose proof (Z.div_mod idx N ltac:(lia)) as Hdiv.
  pose proof (Z.mod_pos_bound idx N ltac:(lia)) as Hbound.
  assert ((- idx) mod N = N - idx mod N) as E1.
  { symmetry. apply Z.mod_unique with (q := - (idx / N) - 1); [lia|nia]. }
  assert ((- (idx + 1)) mod N = N - idx mod N - 1) as E2.
  { symmetry. apply Z.mod_unique with (q := - (idx / N) - 1); [lia|nia]. }
  rewrite E1, E2. split; nia.
Qed.

Lemma retained_index_keep (idx N : Z) (k : nat) :
  1 <= N -> idx mod N = 0 ->
  retained_index idx N 0 = idx /\
  retained_index (idx + 1) N k = retained_index idx N (S k).
Proof.
  intros HN Hr. unfold retained_index.
  pose proof (Z.div_mod idx N ltac:(lia)) as Hdiv.
  assert ((- idx) mod N = 0) as E1.
  { symmetry. apply Z.mod_unique with (q := - (idx / N)); [lia|nia]. }
  assert ((- (idx + 1)) mod N = N - 1) as E2.
  { symmetry. apply Z.mod_unique with (q := - (idx / N) - 1); [lia|nia]. }
  rewrite E1, E2. split; nia.
Qed.

(** The [k]-th record is the dict of the node at the [k]-th multiple of
    the stride, under that node's own index. *)
Lemma nodes_to_dicts_from_lookup (nodes : list TrackDetailNode) :
  forall (idx N : Z) (include_walls : bool) (out : list dict) (k : nat) (d : dict),
  1 <= N ->
  nodes_to_dicts_from idx nodes include_walls N = Ok out ->
  out !! k = Some d ->
  exists n, nodes !! Z.to_nat (retained_index idx N k - idx) = Some n /\
            d = node_dict (retained_index idx N k) n include_walls.
Proof.
  induction nodes as [|n0 nodes IH]; intros idx N w out k d HN; simpl.
  - intros [= <-]. rewrite lookup_nil. discriminate.
  - destruct (Z.eqb_spec N 0) as [?|_]; [lia|].
    destruct (Z.eqb_spec (idx mod N) 0) as [Hr|Hr]; simpl.
    + destruct (nodes_to_dicts_from (idx + 1) nodes w N) as [rest|e] eqn:Hrest; simpl;
        [|discriminate].
      intros [= <-]. destruct (retained_index_keep idx N) with (k := 0%nat) as [H0 _];
        [assumption..|].
      destruct k as [|k]; simpl.
      * intros [= <-]. exists n0. rewrite H0, Z.sub_diag. split; reflexivity.
      * intros Hk. destruct (IH _ _ _ _ _ _ HN Hrest Hk) as (n & Hn & ->).
        destruct (retained_index_keep idx N k) as [_ Hk']; [assumption..|].
        rewrite Hk' in *. exists n. split; [|reflexivity].
        assert (idx + 1 <= retained_index idx N (S k)) as Hge.
        { unfold retained_index. pose proof (Z.mod_pos_bound (- idx) N). nia. }
        replace (Z.to_nat (retained_index idx N (S k) - idx))
          with (S (Z.to_nat (retained_index idx N (S k) - (idx + 1)))) by lia.
        exact Hn.
    + intros Hrest Hk. destruct (IH _ _ _ _ _ _ HN Hrest Hk) as (n & Hn & ->).
      destruct (retained_index_skip idx N k) as [Hk' Hge]; [assumption..|].
      rewrite Hk' in *. exists n. split; [|reflexivity].
      replace (Z.to_nat (retained_index idx N k - idx))
        with (S (Z.to_nat (retained_index idx N k - (idx + 1)))) by lia.
      exact Hn.
Qed.

(** C2, as the code has it: for a stride [N >= 1] the [index] field of the
    [k]-th record is [k * N], the index of its node in the unfiltered
    sequence; it is [k] for stride 1 only. *)
Theorem index_is_original_position (nodes : list TrackDetailNode) (include_walls : bool)
    (N : Z) (out : list dict) (k : nat) (d : dict) :
  1 <= N ->
  nodes_to_dicts nodes include_walls N = Ok out ->
  out !! k = Some d ->
  dict_get d "index" = Some (VInt (Z.of_nat k * N)) /\
  exists n, nodes !! Z.to_nat (Z.of_nat k * N) = Some n /\
            d = node_dict (Z.of_nat k * N) n include_walls.
Proof.
  intros HN Hout Hk.
  destruct (nodes_to_dicts_from_lookup nodes 0 N include_walls out k d HN Hout Hk)
    as (n & Hn & ->).
  assert (retained_index 0 N k = Z.of_nat k * N) as E.
  { unfold retained_index. simpl. rewrite Z.mod_0_l by lia. lia. }
  rewrite E, Z.sub_0_r in *. split; [apply node_dict_index|].
  exists n. split; [exact Hn|reflexivity].
Qed.

Lemma index_is_original_position_witness :
  dict_get (node_dict 2 (sample_node 102 20) false) "index" = Some (VInt (Z.of_nat 1 * 2)) /\
  exists n, sample_nodes !! Z.to_nat (Z.of_nat 1 * 2) = Some n /\
            node_dict 2 (sample_node 102 20) false = node_dict (Z.of_nat 1 * 2) n false.
Proof.
  apply (index_is_original_position sample_nodes false 2
           [node_dict 0 (sample_node 100 0) false; node_dict 2 (sample_node 102 20) false]
           1 (node_dict 2 (sample_node 102 20) false)).
  - lia.
  - vm_compute. reflexivity.
  - reflexivity.
Defined.

(** C2, as stated, fails: with a stride of 2 over three nodes, the second
    record carries the index 2 of its node, not its position 1 among the
    records. *)
Lemma index_is_not_retained_position :
  ~ (forall (out : list dict) (k : nat) (d : dict),
       nodes_to_dicts sample_nodes false 2 = Ok out ->
       out !! k = Some d ->
       dict_get d "index" = Some (VInt (Z.of_nat k))).
Proof.
  intros H.
  specialize (H [node_dict 0 (sample_node 100 0) false; node_dict 2 (sample_node 102 20) false]
                1%nat (node_dict 2 (sample_node 102 20) false) eq_refl eq_refl).
  discriminate H.
Qed.

Example sample_indexes :
  map (fun d => dict_get d "index") <$> nodes_to_dicts sample_nodes false 2
  = Ok [Some (VInt 0); Some (VInt 2)].
Proof. reflexivity. Qed.

(** ** Wall projection *)

Lemma init_direction (M : libm) (cur prev : ideal) (rawDetail : list float) :
  direction (TrackDetailNode_init M cur prev rawDetail) =
  (- math_degrees (math_atan2 M (ideal_2 prev - ideal_1 cur)
                                (ideal_0 cur - ideal_0 prev)))%float.
Proof.
  unfold TrackDetailNode_init. destruct (try_except _ _) as [[wl wr] tc]. reflexivity.
Qed.

Lemma init_position (M : libm) (cur prev : ideal) (rawDetail : list float) :
  position (TrackDetailNode_init M cur prev rawDetail)
  = (ideal_0 cur, ideal_1 cur, ideal_2 cur).
Proof.
  unfold TrackDetailNode_init.
  destruct (try_except _ _) as [[wl wr] tc]. reflexivity.
Qed.

(** The outcome of the [try] block decides the three wall attributes. *)
Lemma init_walls (M : libm) (cur prev : ideal) (rawDetail : list float) :
  let n := TrackDetailNode_init M cur prev rawDetail in
  match walls_try M (position n) (direction n) rawDetail with
  | Ok (wl, wr, tc) => wallLeft n = Some wl /\ wallRight n = Some wr /\ trackCenter n = tc
  | Raise _ => wallLeft n = None /\ wallRight n = None /\ trackCenter n = position n
  end.
Proof.
  cbv zeta. rewrite init_position, init_direction.
  unfold TrackDetailNode_init, vec_0, vec_1.
  destruct (walls_try _ _ _ _) as [[[wl wr] tc]|e]; simpl; auto.
Qed.

Lemma slideVec2d_moved (M : libm) (p : vec3) (h offset : float) :
  slideVec2d M p h offset =
  if is_infinity (h * math_pi / 180) then Raise (ValueError "math domain error")
  else Ok (moved M p h offset).
Proof.
  unfold slideVec2d, moved, math_cos, math_sin. destruct p as [[x y] z].
  destruct (is_infinity _); reflexivity.
Qed.

Lemma slideVec2d_Ok (M : libm) (p q : vec3) (h offset : float) :
  slideVec2d M p h offset = Ok q -> q = moved M p h offset.
Proof.
  rewrite slideVec2d_moved. destruct (is_infinity _); congruence.
Qed.

Lemma walls_try_Ok (M : libm) (pos wl wr tc : vec3) (dir : float) (rawDetail : list float) :
  walls_try M pos dir rawDetail = Ok (wl, wr, tc) ->
  exists L R : float,
    rawDetail !! 5%nat = Some L /\ rawDetail !! 6%nat = Some R /\
    wl = moved M pos (- dir + 90) L /\ wr = moved M pos (- dir - 90) R /\
    tc = midpoint wl wr.
Proof.
  unfold walls_try.
  destruct (py_index rawDetail 5) as [L|e] eqn:H5; simpl; [|discriminate].
  destruct (py_index rawDetail 6) as [R|e] eqn:H6; simpl; [|discriminate].
  destruct (slideVec2d M pos (- dir + 90) L) as [l|e] eqn:Hl; simpl; [|discriminate].
  destruct (slideVec2d M pos (- dir - 90) R) as [r|e] eqn:Hr; simpl; [|discriminate].
  destruct l as [[l0 l1] l2], r as [[r0 r1] r2]. intros [= <- <- <-].
  exists L, R. apply py_index_inv in H5, H6; [|lia..].
  apply slideVec2d_Ok in Hl, Hr. auto.
Qed.

(** When the two offsets are there and neither heading is infinite, the
    projection succeeds. *)
Lemma walls_try_succeeds (M : libm) (pos : vec3) (dir L R : float) (rawDetail : list float) :
  rawDetail !! 5%nat = Some L -> rawDetail !! 6%nat = Some R ->
  is_infinity ((- dir + 90) * math_pi / 180) = false ->
  is_infinity ((- dir - 90) * math_pi / 180) = false ->
  walls_try M pos dir rawDetail
  = Ok (moved M pos (- dir + 90) L, moved M pos (- dir - 90) R,
        midpoint (moved M pos (- dir + 90) L) (moved M pos (- dir - 90) R)).
Proof.
  intros H5 H6 Hl Hr. unfold walls_try.
  assert (py_index rawDetail 5 = Ok L) as -> by exact (py_index_nat rawDetail 5 L H5).
  assert (py_index rawDetail 6 = Ok R) as -> by exact (py_index_nat rawDetail 6 R H6).
  simpl.
  rewrite !slideVec2d_moved, Hl, Hr. simpl.
  destruct (moved M pos (- dir + 90) L) as [[l0 l1] l2].
  destruct (moved M pos (- dir - 90) R) as [[r0 r1] r2]. reflexivity.
Qed.

(** A move by an offset of zero, when the cosine and the sine are finite
    and the point has numbers for x and z. *)
Lemma moved_zero (M : libm) (p : vec3) (h : float) :
  is_finite (c_cos M (h * math_pi / 180)) = true ->
  is_finite (c_sin M (h * math_pi / 180)) = true ->
  is_nan (vec_0 p) = false -> is_nan (vec_2 p) = false ->
  same_point (moved M p h 0) p.
Proof.
  destruct p as [[x y] z]. simpl. intros Hc Hs Hx Hz.
  destruct (mul_zero_finite _ Hc) as [sc Ec].
  destruct (mul_zero_finite _ Hs) as [ss Es].
  split; [|split]; simpl.
  - eapply add_zero_eqb; eassumption.
  - reflexivity.
  - eapply sub_zero_eqb; eassumption.
Qed.

(** C4, as the code has it: when the wall projection fails, trackCenter is
    position, the record's x, y, z are the rotated position and the six
    wall fields are null.  Zero offsets do not make it fail: whenever the
    projection succeeds, as it does for offsets of zero unless a heading is
    infinite, trackCenter is the midpoint of the two wall points and the
    six wall fields are their rotated coordinates. *)
Theorem wall_absence_fallback (M : libm) (cur prev : ideal) (rawDetail : list float)
    (idx : Z) :
  let n := TrackDetailNode_init M cur prev rawDetail in
  let d := node_dict idx n true in
  dict_point d "x" "y" "z" = Some (point_values (rotate (position n))) /\
  match walls_try M (position n) (direction n) rawDetail with
  | Raise _ =>
      trackCenter n = position n /\
      dict_point d "wallLeft_x" "wallLeft_y" "wallLeft_z" = Some (VNone, VNone, VNone) /\
      dict_point d "wallRight_x" "wallRight_y" "wallRight_z" = Some (VNone, VNone, VNone)
  | Ok (wl, wr, _) =>
      trackCenter n = midpoint wl wr /\
      dict_point d "wallLeft_x" "wallLeft_y" "wallLeft_z"
        = Some (point_values (rotate wl)) /\
      dict_point d "wallRight_x" "wallRight_y" "wallRight_z"
        = Some (point_values (rotate wr))
  end /\
  (rawDetail !! 5%nat = Some 0%float -> rawDetail !! 6%nat = Some 0%float ->
   is_infinity ((- direction n + 90) * math_pi / 180) = false ->
   is_infinity ((- direction n - 90) * math_pi / 180) = false ->
   wallLeft n = Some (moved M (position n) (- direction n + 90) 0) /\
   wallRight n = Some (moved M (position n) (- direction n - 90) 0)).
Proof.
  cbv zeta. split; [apply node_dict_position|].
  pose proof (init_walls M cur prev rawDetail) as Hw. cbv zeta in Hw.
  rewrite node_dict_wallLeft, node_dict_wallRight.
  split.
  - destruct (walls_try _ _ _ _) as [[[wl wr] tc]|e] eqn:Htry.
    + destruct Hw as (-> & -> & ->).
      apply walls_try_Ok in Htry as (L & R & _ & _ & _ & _ & ->). auto.
    + destruct Hw as (-> & -> & ->). auto.
  - intros H5 H6 Hl Hr.
    rewrite (walls_try_succeeds M _ _ _ _ _ H5 H6 Hl Hr) in Hw.
    destruct Hw as (-> & -> & _). auto.
Qed.

Lemma wall_absence_fallback_witness :
  wallLeft (TrackDetailNode_init libm_sample (10%float, 0%float, 0%float, 5%float, 101)
              (0%float, 0%float, 0%float, 0%float, 100) (replicate 18 0%float))
    = Some (10%float, 0%float, 0%float) /\
  wallRight (TrackDetailNode_init libm_sample (10%float, 0%float, 0%float, 5%float, 101)
               (0%float, 0%float, 0%float, 0%float, 100) (replicate 18 0%float))
    = Some (10%float, 0%float, 0%float).
Proof.
  apply (proj2 (proj2 (wall_absence_fallback libm_sample
                         (10%float, 0%float, 0%float, 5%float, 101)
                         (0%float, 0%float, 0%float, 0%float, 100)
                         (replicate 18 0%float) 1))); reflexivity.
Defined.

(** C4, as stated, fails: the two records of [truncated_file] are filled
    with zeros, and with walls requested their wall fields are numbers. *)
Lemma zero_filled_walls_are_not_null :
  ~ (forall (nodes : list TrackDetailNode) (dicts : list dict) (d : dict),
       getNodesFromFastLane libm_sample truncated_file = Ok nodes ->
       nodes_to_dicts nodes true 1 = Ok dicts ->
       d ∈ dicts ->
       dict_point d "wallLeft_x" "wallLeft_y" "wallLeft_z" = Some (VNone, VNone, VNone) /\
       dict_point d "wallRight_x" "wallRight_y" "wallRight_z" = Some (VNone, VNone, VNone)).
Proof.
  intros H.
  destruct (getNodesFromFastLane libm_sample truncated_file) as [nodes|e] eqn:Hnodes;
    [|vm_compute in Hnodes; discriminate].
  destruct (nodes_to_dicts nodes true 1) as [dicts|e] eqn:Hdicts;
    [|vm_compute in Hnodes; injection Hnodes as <-; vm_compute in Hdicts; discriminate].
  vm_compute in Hnodes. injection Hnodes as <-.
  vm_compute in Hdicts. injection Hdicts as <-.
  edestruct H as [Hl _]; [reflexivity|reflexivity|apply list_elem_of_here|].
  vm_compute in Hl. discriminate.
Qed.

Example zero_filled_wall_fields :
  map (fun d => dict_point d "wallLeft_x" "wallLeft_y" "wallLeft_z")
    <$> (getNodesFromFastLane libm_sample truncated_file
           ≫= fun nodes => nodes_to_dicts nodes true 1)
  = Ok [Some (VFloat 0, VFloat 0, VFloat (-0));
        Some (VFloat 0, VFloat 0, VFloat (-10))].
Proof. vm_compute. reflexivity. Qed.

(** C8, as the code has it: when the walls of a node are present, wallLeft
    is position moved by [L = rawDetail[5]] along the heading
    [-direction + 90] and wallRight is position moved by [R = rawDetail[6]]
    along [-direction - 90], a move by [o] along [h] sending [(x, y, z)] to
    [(x + cos(h) * o, y, z - sin(h) * o)].  A move by an offset of 0 gives
    a point numerically equal to the point moved when the cosine and the
    sine are finite and x and z are not NaN. *)
Theorem wall_projection_formula (M : libm) (cur prev : ideal) (rawDetail : list float)
    (wl wr : vec3) :
  let n := TrackDetailNode_init M cur prev rawDetail in
  wallLeft n = Some wl ->
  wallRight n = Some wr ->
  (exists L R : float,
     rawDetail !! 5%nat = Some L /\ rawDetail !! 6%nat = Some R /\
     wl = moved M (position n) (- direction n + 90) L /\
     wr = moved M (position n) (- direction n - 90) R) /\
  (forall (p : vec3) (h o : float),
     moved M p h o = (vec_0 p + c_cos M (h * math_pi / 180) * o, vec_1 p,
                      vec_2 p - c_sin M (h * math_pi / 180) * o)%float) /\
  (forall (p : vec3) (h : float),
     is_finite (c_cos M (h * math_pi / 180)) = true ->
     is_finite (c_sin M (h * math_pi / 180)) = true ->
     is_nan (vec_0 p) = false -> is_nan (vec_2 p) = false ->
     same_point (moved M p h 0) p).
Proof.
  cbv zeta. intros Hl Hr.
  pose proof (init_walls M cur prev rawDetail) as Hw. cbv zeta in Hw.
  split; [|split].
  - destruct (walls_try _ _ _ _) as [[[wl' wr'] tc]|e] eqn:Htry.
    + destruct Hw as (Hl' & Hr' & _).
      rewrite Hl in Hl'. rewrite Hr in Hr'. injection Hl' as <-. injection Hr' as <-.
      apply walls_try_Ok in Htry as (L & R & H5 & H6 & El & Er & _). eauto 6.
    + destruct Hw as (Hl' & _). congruence.
  - intros [[x y] z] h o. reflexivity.
  - apply moved_zero.
Qed.

Lemma wall_projection_formula_witness :
  same_point (moved libm_sample (0, 0, 0)%float 270%float 0%float) (0, 0, 0)%float /\
  (0x1.a79394c9e8a0ap-53, 0, -3)%float
  = moved libm_sample (0, 0, 0)%float (- -180 - 90)%float 3%float.
Proof.
  destruct (wall_projection_formula libm_sample
              (0%float, 0%float, 0%float, 0%float, 100)
              (10%float, 0%float, 0%float, 5%float, 101)
              (decode_rawDetail sample_detail)
              (0, 0, 0)%float (0x1.a79394c9e8a0ap-53, 0, -3)%float eq_refl eq_refl)
    as (_ & _ & Hzero).
  split.
  - apply (Hzero (0, 0, 0)%float 270%float); reflexivity.
  - reflexivity.
Defined.

(** C8, as stated, fails where the heading is NaN: in [nan_file] the
    previous sample has a NaN x, the detail record is filled with zeros,
    and wallLeft is not the position [(1, 0, 2)]. *)
Lemma zero_offset_with_nan_heading :
  exists (n : TrackDetailNode) (wl : vec3),
    getNodesFromFastLane libm_sample nan_file = Ok [n] /\
    decode_rawDetail (detail_bytes [] 0) !! 5%nat = Some 0%float /\
    is_nan (direction n) = true /\
    position n = (1, 0, 2)%float /\
    wallLeft n = Some wl /\
    (vec_0 wl =? vec_0 (position n))%float = false /\
    wl <> position n.
Proof.
  eexists. eexists.
  split; [vm_compute; reflexivity|].
  split; [reflexivity|].
  split; [reflexivity|].
  split; [reflexivity|].
  split; [reflexivity|].
  split; [reflexivity|].
  intros H. apply (f_equal (fun p => is_nan (vec_0 p))) in H. vm_compute in H.
  discriminate H.
Qed.

(** ** Writers on an empty sequence *)

(** C6: on an empty sequence the CSV writer prints "No data to write." and
    leaves the files as they are; the text writer does not: it opens the
    output file, which is created empty, and prints nothing. *)
Theorem empty_export (T : textlib) (out_file : string) (w : world) :
  write_csv T [] out_file w = ({| files := files w;
                                  stdout := stdout w ++ ["No data to write."] |}, Ok tt) /\
  write_txt T [] out_file w = ({| files := <[out_file := ""]> (files w);
                                  stdout := stdout w |}, Ok tt).
Proof.
  split; reflexivity.
Qed.

(** The text writer on an empty sequence and no file at [out.txt]: after
    the call the file is there, and nothing was reported. *)
Lemma write_txt_creates_empty_file :
  ~ (forall T : textlib,
       files (write_txt T [] "out.txt" empty_world).1 !! "out.txt" = None /\
       stdout (write_txt T [] "out.txt" empty_world).1 = ["No data to write."]).
Proof.
  intros H.
  destruct (H {| csv_header := fun _ => ""; csv_row := fun _ _ => Ok "";
                 json_dump := fun _ => Ok ""; format_6f := fun _ => Ok "" |}) as [Hfile _].
  simpl in Hfile. rewrite lookup_insert_eq in Hfile. discriminate Hfile.
Qed.

(** * Further properties *)

(** ** Failures and successes of the parse *)

Lemma ideal_records_S (n : nat) (block : list Byte.byte) :
  ideal_records (S n) block
  = unpack_4f_i (take 20 block) :: ideal_records n (drop 20 block).
Proof.
  unfold ideal_records. change (seq 0 (S n)) with (0%nat :: seq 1 n).
  rewrite fmap_cons. f_equal.
  rewrite <- fmap_S_seq, <- list_fmap_compose.
  apply list_fmap_ext. intros _ k _. unfold compose. rewrite drop_drop.
  replace (20 + 20 * k)%nat with (20 * S k)%nat by lia. reflexivity.
Qed.

Lemma read_rawIdeal_decodes (n : nat) : forall (block : list Byte.byte),
  (20 * n <= length block)%nat ->
  read_rawIdeal n block = Ok (ideal_records n block, drop (20 * n) block).
Proof.
  induction n as [|n IH]; intros block Hlen.
  - reflexivity.
  - rewrite ideal_records_S. replace (20 * S n)%nat with (20 + 20 * n)%nat by lia.
    rewrite <- drop_drop.
    cbn [read_rawIdeal]. unfold read. rewrite length_take.
    destruct (Nat.ltb_spec (20 `min` length block) 20) as [?|_]; [lia|].
    rewrite IH by (rewrite length_drop; lia). reflexivity.
Qed.

Lemma read_rawIdeal_truncated (n : nat) : forall (block : list Byte.byte),
  (length block < 20 * n)%nat ->
  read_rawIdeal n block
  = Raise (ValueError "Unexpected end of file while reading rawIdeal.").
Proof.
  induction n as [|n IH]; intros block Hlen; [lia|].
  cbn [read_rawIdeal]. unfold read. rewrite length_take.
  destruct (Nat.ltb_spec (20 `min` length block) 20) as [?|Hge]; [reflexivity|].
  rewrite IH by (rewrite length_drop; lia). reflexivity.
Qed.

Lemma ideal_block_header (content : list Byte.byte) :
  (16 <= length content)%nat ->
  ideal_block content =
  '(rawIdeal, buffer) ← read_rawIdeal (Z.to_nat (length_field content)) (drop 16 content);
  Ok (length_field content, rawIdeal, buffer).
Proof.
  intros Hlen. unfold ideal_block, length_field, read. rewrite length_take.
  destruct (Nat.ltb_spec (16 `min` length content) 16) as [?|_]; [lia|].
  destruct (unpack_4i (take 16 content)) as [[[header len] lapTime] sampleCount].
  reflexivity.
Qed.

(** A complete ideal block is decoded record by record. *)
Lemma ideal_block_decodes (content : list Byte.byte) :
  (16 + 20 * Z.to_nat (length_field content) <= length content)%nat ->
  ideal_block content
  = Ok (length_field content,
        ideal_records (Z.to_nat (length_field content)) (drop 16 content),
        drop (16 + 20 * Z.to_nat (length_field content)) content).
Proof.
  intros Hlen. rewrite ideal_block_header by lia.
  rewrite read_rawIdeal_decodes by (rewrite length_drop; lia).
  simpl. rewrite drop_drop. reflexivity.
Qed.

(** What a parsed ideal block says of the file. *)
Lemma ideal_block_inv (content buffer : list Byte.byte) (len : Z) (rawIdeal : list ideal) :
  ideal_block content = Ok (len, rawIdeal, buffer) ->
  (16 + 20 * Z.to_nat len <= length content)%nat /\
  len = length_field content /\
  rawIdeal = ideal_records (Z.to_nat len) (drop 16 content) /\
  buffer = drop (16 + 20 * Z.to_nat len) content.
Proof.
  intros H.
  assert (16 <= length content)%nat as H16.
  { destruct (Nat.le_gt_cases 16 (length content)) as [|Hlt]; [assumption|].
    unfold ideal_block, read in H. rewrite length_take in H.
    destruct (Nat.ltb_spec (16 `min` length content) 16); [discriminate|lia]. }
  destruct (Nat.le_gt_cases (16 + 20 * Z.to_nat (length_field content)) (length content))
    as [Hle|Hlt].
  - rewrite ideal_block_decodes in H by assumption. injection H as <- <- <-. auto.
  - rewrite ideal_block_header in H by assumption.
    rewrite read_rawIdeal_truncated in H by (rewrite length_drop; lia). discriminate.
Qed.

(** X1: a file of fewer than sixteen bytes fails on its header. *)
Theorem short_header_fails (M : libm) (content : list Byte.byte) :
  (length content < 16)%nat ->
  getNodesFromFastLane M content
  = Raise (RuntimeError (ValueError "File too short or invalid header.")).
Proof.
  intros Hlen. unfold getNodesFromFastLane, parse_body, read. rewrite length_take.
  destruct (Nat.ltb_spec (16 `min` length content) 16); [reflexivity|lia].
Qed.

Lemma short_header_fails_witness :
  getNodesFromFastLane libm_sample (take 10 sample_file)
  = Raise (RuntimeError (ValueError "File too short or invalid header.")).
Proof.
  apply (short_header_fails libm_sample (take 10 sample_file)). vm_compute. lia.
Defined.

(** X2: a file whose header announces more ideal samples than the file
    holds fails on the ideal block, whatever else it contains. *)
Theorem truncated_ideal_block_fails (M : libm) (content : list Byte.byte) :
  (16 <= length content)%nat ->
  (length content < 16 + 20 * Z.to_nat (length_field content))%nat ->
  getNodesFromFastLane M content
  = Raise (RuntimeError (ValueError "Unexpected end of file while reading rawIdeal.")).
Proof.
  intros H16 Hlen. unfold getNodesFromFastLane.
  rewrite parse_body_stages, ideal_block_header by assumption.
  rewrite read_rawIdeal_truncated by (rewrite length_drop; lia). reflexivity.
Qed.

Lemma truncated_ideal_block_fails_witness :
  getNodesFromFastLane libm_sample (take 30 sample_file)
  = Raise (RuntimeError (ValueError "Unexpected end of file while reading rawIdeal.")).
Proof.
  apply (truncated_ideal_block_fails libm_sample (take 30 sample_file)); vm_compute; lia.
Defined.

(** X3: node [i] of a successful parse carries the fields of the record of
    twenty bytes at offset [16 + 20 * i] of the file: x, y, z as position,
    then distance, then id. *)
Theorem node_fields_from_layout (M : libm) (content : list Byte.byte)
    (nodes : list TrackDetailNode) (i : nat) (node : TrackDetailNode) :
  getNodesFromFastLane M content = Ok nodes ->
  nodes !! i = Some node ->
  position node = (unpack_f (take 4 (drop (16 + 20 * i) content)),
                   unpack_f (take 4 (drop (16 + 20 * i + 4) content)),
                   unpack_f (take 4 (drop (16 + 20 * i + 8) content))) /\
  distance node = unpack_f (take 4 (drop (16 + 20 * i + 12) content)) /\
  id node = unpack_i (take 4 (drop (16 + 20 * i + 16) content)).
Proof.
  intros Hparse Hi. apply getNodes_Ok in Hparse.
  rewrite parse_body_stages in Hparse.
  destruct (ideal_block content) as [[[len rawIdeal] buffer]|e] eqn:Hblock;
    [|discriminate].
  simpl in Hparse.
  pose proof (detail_loop_nodes M rawIdeal len _ 0 _ nodes i node ltac:(lia) Hparse Hi)
    as Hnode.
  unfold node_at in Hnode. rewrite Z.add_0_l in Hnode.
  destruct (py_index rawIdeal (prev_index len (Z.of_nat i))) as [prev|e]; simpl in Hnode;
    [|discriminate].
  unfold detail_node in Hnode.
  destruct (py_index rawIdeal (Z.of_nat i)) as [cur|e] eqn:Hcur; simpl in Hnode;
    [|discriminate].
  injection Hnode as <-.
  apply py_index_inv in Hcur; [|lia]. rewrite Nat2Z.id in Hcur.
  apply ideal_block_inv in Hblock as (Hlen & _ & -> & _).
  unfold ideal_records in Hcur. rewrite list_lookup_fmap in Hcur.
  destruct (seq 0 (Z.to_nat len) !! i) as [k|] eqn:Hk; [|discriminate].
  apply lookup_seq in Hk as [-> Hlt].
  assert (cur = unpack_4f_i (take 20 (drop (20 * i) (drop 16 content)))) as ->
    by (injection Hcur as <-; reflexivity).
  clear Hcur.
  assert (forall a : nat, (a + 4 <= 20)%nat ->
            take 4 (drop a (take 20 (drop (20 * i) (drop 16 content))))
            = take 4 (drop (16 + 20 * i + a) content)) as Hfield.
  { intros a Ha. replace 20%nat with (a + (20 - a))%nat at 1 by lia.
    rewrite <- take_drop_commute, take_take, !drop_drop.
    replace (4 `min` (20 - a))%nat with 4%nat by lia. reflexivity. }
  pose proof (Hfield 0%nat ltac:(lia)) as H0. rewrite drop_0, Nat.add_0_r in H0.
  rewrite init_position.
  unfold TrackDetailNode_init. destruct (try_except _ _) as [[wl wr] tc].
  cbn [distance id].
  unfold unpack_4f_i, ideal_0, ideal_1, ideal_2, ideal_3, ideal_4.
  rewrite H0, !Hfield by lia. auto.
Qed.

Lemma node_fields_from_layout_witness :
  (10, 0, 0)%float
  = (unpack_f (take 4 (drop (16 + 20 * 1) truncated_file)),
     unpack_f (take 4 (drop (16 + 20 * 1 + 4) truncated_file)),
     unpack_f (take 4 (drop (16 + 20 * 1 + 8) truncated_file))) /\
  5%float = unpack_f (take 4 (drop (16 + 20 * 1 + 12) truncated_file)) /\
  101 = unpack_i (take 4 (drop (16 + 20 * 1 + 16) truncated_file)).
Proof.
  apply (node_fields_from_layout libm_sample truncated_file
           [TrackDetailNode_init libm_sample (0%float, 0%float, 0%float, 0%float, 100)
              (10%float, 0%float, 0%float, 5%float, 101) (replicate 18 0%float);
            TrackDetailNode_init libm_sample (10%float, 0%float, 0%float, 5%float, 101)
              (0%float, 0%float, 0%float, 0%float, 100) (replicate 18 0%float)]
           1
           (TrackDetailNode_init libm_sample (10%float, 0%float, 0%float, 5%float, 101)
              (0%float, 0%float, 0%float, 0%float, 100) (replicate 18 0%float))).
  - vm_compute. reflexivity.
  - reflexivity.
Defined.

(** X4: once the header and the ideal block are read, the parse succeeds
    exactly when no detail record is announced, or the ideal block is not
    empty and at most one record more than ideal samples is announced; it
    then returns [min(max(extraCount, 0), max(length, 0))] nodes. *)
Theorem parse_succeeds_iff (M : libm) (content buffer : list Byte.byte) (len : Z)
    (rawIdeal : list ideal) :
  ideal_block content = Ok (len, rawIdeal, buffer) ->
  ((exists nodes, getNodesFromFastLane M content = Ok nodes) <->
   ((read_extraCount buffer).1 <= 0 \/
    (1 <= len /\ (read_extraCount buffer).1 <= len + 1))) /\
  (forall nodes, getNodesFromFastLane M content = Ok nodes ->
     Z.of_nat (length nodes) = Z.min (Z.max (read_extraCount buffer).1 0) (Z.max len 0)).
Proof.
  intros Hblock.
  pose proof (ideal_block_length _ _ _ _ Hblock) as HL.
  assert ((read_extraCount buffer).1 <= 0 ->
          getNodesFromFastLane M content = Ok []) as Hnone.
  { intros H0. apply getNodes_Ok. rewrite (getNodes_stages M _ _ _ _ Hblock).
    replace (Z.to_nat (read_extraCount buffer).1) with 0%nat by lia. reflexivity. }
  assert (1 <= (read_extraCount buffer).1 ->
          ~ (1 <= len /\ (read_extraCount buffer).1 <= len + 1) ->
          getNodesFromFastLane M content = Raise (RuntimeError IndexError)) as Hfail.
  { intros H1 Hout. unfold getNodesFromFastLane.
    rewrite (getNodes_stages M _ _ _ _ Hblock).
    destruct (Z.le_gt_cases 1 len) as [Hlen|Hlen].
    - rewrite detail_loop_overrun; [reflexivity|lia|lia].
    - destruct rawIdeal; [|simpl in HL; lia].
      destruct (Z.to_nat (read_extraCount buffer).1) as [|n] eqn:E; [lia|].
      rewrite detail_loop_empty_block. reflexivity. }
  split; [split|].
  - intros [nodes Hnodes].
    destruct (Z.le_gt_cases (read_extraCount buffer).1 0) as [|Hpos]; [auto|].
    right.
    destruct (Z.le_gt_cases 1 len) as [Hlen|Hlen];
      [destruct (Z.le_gt_cases (read_extraCount buffer).1 (len + 1)) as [|Hover]; [auto|]|];
      rewrite Hfail in Hnodes by lia; discriminate.
  - intros [H0|[Hlen Hle]]; [eauto|].
    destruct (Z.le_gt_cases (read_extraCount buffer).1 0) as [|Hpos]; [eauto|].
    destruct (extraCount_one_past_succeeds M _ _ _ _ Hblock Hlen) as (nodes & Hn & _);
      [lia|eauto].
  - intros nodes Hnodes.
    destruct (Z.le_gt_cases (read_extraCount buffer).1 0) as [H0|Hpos].
    + rewrite (Hnone H0) in Hnodes. injection Hnodes as <-. simpl. lia.
    + destruct (Z.le_gt_cases 1 len) as [Hlen|Hlen];
        [destruct (Z.le_gt_cases (read_extraCount buffer).1 (len + 1)) as [Hle|Hover]|];
        try (rewrite Hfail in Hnodes by lia; discriminate).
      destruct (extraCount_one_past_succeeds M _ _ _ _ Hblock Hlen) as (nodes' & Hn & Hc);
        [lia|].
      rewrite Hn in Hnodes. injection Hnodes as <-. lia.
Qed.

Lemma parse_succeeds_iff_witness :
  ((exists nodes, getNodesFromFastLane libm_sample (sample_ideal_block ++ pack_words [3])
                  = Ok nodes) <->
   (3 <= 0 \/ (1 <= 2 /\ 3 <= 2 + 1))) /\
  (forall nodes, getNodesFromFastLane libm_sample (sample_ideal_block ++ pack_words [3])
                 = Ok nodes ->
     Z.of_nat (length nodes) = Z.min (Z.max 3 0) (Z.max 2 0)).
Proof.
  apply (parse_succeeds_iff libm_sample (sample_ideal_block ++ pack_words [3])
           (pack_words [3]) 2 sample_rawIdeal).
  vm_compute. reflexivity.
Defined.

(** ** Bytes after the detail records *)

Lemma ideal_records_app (n : nat) (block extra : list Byte.byte) :
  (20 * n <= length block)%nat ->
  ideal_records n (block ++ extra) = ideal_records n block.
Proof.
  intros Hlen. unfold ideal_records. apply list_fmap_ext. intros i k Hk.
  apply lookup_seq in Hk as [-> Hlt]. simpl plus.
  rewrite drop_app_le by lia. rewrite take_app_le by (rewrite length_drop; lia).
  reflexivity.
Qed.

Lemma detail_loop_app (M : libm) (rawIdeal : list ideal) (len : Z) (extra : list Byte.byte)
    (n : nat) : forall (i : Z) (buffer : list Byte.byte),
  (72 * n <= length buffer)%nat ->
  detail_loop M rawIdeal len n i (buffer ++ extra) = detail_loop M rawIdeal len n i buffer.
Proof.
  induction n as [|n IH]; intros i buffer Hlen; [reflexivity|].
  rewrite !detail_loop_step.
  rewrite take_app_le, drop_app_le by lia.
  rewrite IH by (rewrite length_drop; lia). reflexivity.
Qed.

(** X5: when the file holds [extraCount] and all the detail records it
    announces, bytes appended to the file change nothing. *)
Theorem trailing_bytes_ignored (M : libm) (content extra buffer : list Byte.byte) (len : Z)
    (rawIdeal : list ideal) :
  ideal_block content = Ok (len, rawIdeal, buffer) ->
  (4 + 72 * Z.to_nat (read_extraCount buffer).1 <= length buffer)%nat ->
  getNodesFromFastLane M (content ++ extra) = getNodesFromFastLane M content.
Proof.
  intros Hblock Hlen.
  pose proof (ideal_block_inv _ _ _ _ Hblock) as (Hsize & Hfield & Hraw & Hbuf).
  assert (length_field (content ++ extra) = len) as Hfield'.
  { unfold length_field. rewrite take_app_le by lia. symmetry. exact Hfield. }
  assert (ideal_block (content ++ extra) = Ok (len, rawIdeal, buffer ++ extra)) as Hblock'.
  { rewrite ideal_block_decodes by (rewrite Hfield', length_app; lia).
    rewrite Hfield', !drop_app_le by lia.
    rewrite ideal_records_app by (rewrite length_drop; lia).
    rewrite <- Hraw, <- Hbuf. reflexivity. }
  unfold getNodesFromFastLane.
  rewrite (getNodes_stages M _ _ _ _ Hblock), (getNodes_stages M _ _ _ _ Hblock').
  assert (read_extraCount (buffer ++ extra)
          = ((read_extraCount buffer).1, (read_extraCount buffer).2 ++ extra)) as ->.
  { unfold read_extraCount, read. rewrite take_app_le, drop_app_le by lia.
    rewrite length_take. destruct (Nat.ltb_spec (4 `min` length buffer) 4); [lia|].
    reflexivity. }
  cbn [fst snd]. rewrite detail_loop_app; [reflexivity|].
  unfold read_extraCount, read. rewrite length_take.
  destruct (Nat.ltb_spec (4 `min` length buffer) 4); [lia|]. cbn [fst snd] in *.
  rewrite length_drop.
  assert ((read_extraCount buffer).1 = unpack_i (take 4 buffer)) as E.
  { unfold read_extraCount, read. rewrite length_take.
    destruct (Nat.ltb_spec (4 `min` length buffer) 4); [lia|]. reflexivity. }
  rewrite E in Hlen. lia.
Qed.

Lemma trailing_bytes_ignored_witness :
  getNodesFromFastLane libm_sample (sample_file ++ pack_words [7; 8; 9])
  = getNodesFromFastLane libm_sample sample_file.
Proof.
  apply (trailing_bytes_ignored libm_sample sample_file (pack_words [7; 8; 9])
           (pack_words [1] ++ sample_detail) 2 sample_rawIdeal).
  - vm_compute. reflexivity.
  - vm_compute. lia.
Defined.

(** ** The records of the transform *)

Lemma cdiv_succ (a N : Z) :
  1 <= N -> 0 <= a ->
  cdiv (a + 1) N = cdiv a N + (if a mod N =? 0 then 1 else 0).
Proof.
  intros HN Ha. unfold cdiv.
  pose proof (Z.div_mod a N ltac:(lia)) as Hdiv.
  pose proof (Z.mod_pos_bound a N ltac:(lia)) as Hbound.
  destruct (Z.eqb_spec (a mod N) 0) as [Hr|Hr].
  - assert ((a + N - 1) / N = a / N) as ->.
    { symmetry. apply Z.div_unique with (r := N - 1); [lia|nia]. }
    symmetry. apply Z.div_unique with (r := 0); [lia|nia].
  - assert ((a + N - 1) / N = a / N + 1) as ->.
    { symmetry. apply Z.div_unique with (r := a mod N - 1); [lia|nia]. }
    rewrite Z.add_0_r.
    symmetry. apply Z.div_unique with (r := a mod N); [lia|nia].
Qed.

Lemma nodes_to_dicts_from_count (nodes : list TrackDetailNode) :
  forall (idx N : Z) (include_walls : bool),
  1 <= N -> 0 <= idx ->
  exists out, nodes_to_dicts_from idx nodes include_walls N = Ok out /\
              Z.of_nat (length out) = cdiv (idx + Z.of_nat (length nodes)) N - cdiv idx N.
Proof.
  induction nodes as [|n nodes IH]; intros idx N w HN Hidx.
  - exists []. split; [reflexivity|]. simpl. rewrite Z.add_0_r. lia.
  - destruct (IH (idx + 1) N w HN ltac:(lia)) as (out & Hout & Hlen).
    cbn [nodes_to_dicts_from]. rewrite Hout.
    destruct (Z.eqb_spec N 0) as [?|_]; [lia|].
    replace (idx + Z.of_nat (length (n :: nodes)))
      with (idx + 1 + Z.of_nat (length nodes)) by (simpl length; lia).
    rewrite (cdiv_succ idx N HN Hidx) in Hlen.
    destruct (Z.eqb_spec (idx mod N) 0) as [Hr|Hr]; simpl.
    + eexists. split; [reflexivity|]. simpl length. lia.
    + exists out. split; [reflexivity|]. lia.
Qed.

(** X6: for a stride [N >= 1] the transform does not fail and keeps
    [len / N] records, rounded up. *)
Theorem record_count (nodes : list TrackDetailNode) (include_walls : bool) (N : Z) :
  1 <= N ->
  exists out, nodes_to_dicts nodes include_walls N = Ok out /\
              Z.of_nat (length out) = cdiv (Z.of_nat (length nodes)) N.
Proof.
  intros HN.
  destruct (nodes_to_dicts_from_count nodes 0 N include_walls HN ltac:(lia))
    as (out & Hout & Hlen).
  exists out. split; [exact Hout|]. rewrite Hlen.
  unfold cdiv at 2. rewrite Z.add_0_l, Z.div_small by lia. lia.
Qed.

Lemma record_count_witness :
  exists out, nodes_to_dicts sample_nodes true 2 = Ok out /\
              Z.of_nat (length out) = cdiv (Z.of_nat (length sample_nodes)) 2.
Proof.
  apply (record_count sample_nodes true 2). lia.
Defined.

Lemma mod_opp_zero (a N : Z) : N <> 0 -> (a mod - N =? 0) = (a mod N =? 0).
Proof.
  intros HN.
  destruct (Z.eqb_spec (a mod N) 0) as [Hr|Hr].
  - apply Z.eqb_eq. apply Z.mod_opp_r_z; assumption.
  - apply Z.eqb_neq. intros Hr'. apply Hr.
    rewrite <- (Z.opp_involutive N). apply Z.mod_opp_r_z; [lia|assumption].
Qed.

(** X7: a negative stride keeps the records of its absolute value. *)
Theorem negative_stride (nodes : list TrackDetailNode) (include_walls : bool) (N : Z) :
  nodes_to_dicts nodes include_walls (- N) = nodes_to_dicts nodes include_walls N.
Proof.
  unfold nodes_to_dicts. generalize 0.
  induction nodes as [|n nodes IH]; intros idx; [reflexivity|].
  cbn [nodes_to_dicts_from]. rewrite IH.
  destruct (Z.eqb_spec N 0) as [->|HN]; [reflexivity|].
  destruct (Z.eqb_spec (- N) 0) as [?|_]; [lia|].
  rewrite mod_opp_zero by assumption. reflexivity.
Qed.

Lemma node_dict_keys (idx : Z) (n : TrackDetailNode) (include_walls : bool) :
  keys (node_dict idx n include_walls) = record_keys include_walls.
Proof.
  node_cases n; destruct include_walls; reflexivity.
Qed.

Lemma node_dict_meta (idx : Z) (n : TrackDetailNode) (include_walls : bool) :
  dict_get (node_dict idx n include_walls) "id" = Some (VInt (id n)) /\
  dict_get (node_dict idx n include_walls) "distance" = Some (VFloat (distance n)) /\
  dict_get (node_dict idx n include_walls) "direction" = Some (VFloat (direction n)) /\
  dict_get (node_dict idx n include_walls) "trackCenter" = None.
Proof.
  node_cases n; destruct include_walls; repeat split; reflexivity.
Qed.

(** Every record is the dict of one of the nodes. *)
Lemma nodes_to_dicts_from_elem (nodes : list TrackDetailNode) :
  forall (idx N : Z) (include_walls : bool) (out : list dict) (d : dict),
  nodes_to_dicts_from idx nodes include_walls N = Ok out ->
  d ∈ out ->
  exists (j : Z) (n : TrackDetailNode), n ∈ nodes /\ d = node_dict j n include_walls.
Proof.
  induction nodes as [|n nodes IH]; intros idx N w out d; cbn [nodes_to_dicts_from].
  - intros [= <-] Hd. apply elem_of_nil in Hd as [].
  - destruct (N =? 0); [discriminate|].
    destruct (negb _).
    + intros Hout Hd. destruct (IH _ _ _ _ _ Hout Hd) as (j & n' & Hn' & ->).
      exists j, n'. split; [apply list_elem_of_further, Hn'|reflexivity].
    + destruct (nodes_to_dicts_from (idx + 1) nodes w N) as [rest|e] eqn:Hrest;
        [|discriminate].
      intros [= <-] Hd. apply elem_of_cons in Hd as [->|Hd].
      * exists idx, n. split; [apply list_elem_of_here|reflexivity].
      * destruct (IH _ _ _ _ _ Hrest Hd) as (j & n' & Hn' & ->).
        exists j, n'. split; [apply list_elem_of_further, Hn'|reflexivity].
Qed.

(** X8: every record of an export has the same keys in the same order,
    seven without walls and thirteen with them, whether or not its node
    has walls; it carries the id, distance and direction of one of the
    nodes, and no trackCenter. *)
Theorem records_share_schema (nodes : list TrackDetailNode) (include_walls : bool) (N : Z)
    (out : list dict) (d : dict) :
  nodes_to_dicts nodes include_walls N = Ok out ->
  d ∈ out ->
  keys d = record_keys include_walls /\
  dict_get d "trackCenter" = None /\
  exists n, n ∈ nodes /\
    dict_get d "id" = Some (VInt (id n)) /\
    dict_get d "distance" = Some (VFloat (distance n)) /\
    dict_get d "direction" = Some (VFloat (direction n)).
Proof.
  intros Hout Hd.
  destruct (nodes_to_dicts_from_elem nodes 0 N include_walls out d Hout Hd)
    as (j & n & Hn & ->).
  destruct (node_dict_meta j n include_walls) as (Hid & Hdist & Hdir & Htc).
  split; [apply node_dict_keys|]. split; [exact Htc|].
  exists n. auto.
Qed.

Lemma records_share_schema_witness :
  keys (node_dict 2 (sample_node 102 20) true) = record_keys true /\
  dict_get (node_dict 2 (sample_node 102 20) true) "trackCenter" = None /\
  exists n, n ∈ sample_nodes /\
    dict_get (node_dict 2 (sample_node 102 20) true) "id" = Some (VInt (id n)) /\
    dict_get (node_dict 2 (sample_node 102 20) true) "distance" = Some (VFloat (distance n)) /\
    dict_get (node_dict 2 (sample_node 102 20) true) "direction"
      = Some (VFloat (direction n)).
Proof.
  apply (records_share_schema sample_nodes true 2
           [node_dict 0 (sample_node 100 0) true; node_dict 2 (sample_node 102 20) true]).
  - vm_compute. reflexivity.
  - apply list_elem_of_further, list_elem_of_here.
Defined.

(** X9: for a stride [N >= 1] no multiple of the stride is left out: the
    node at index [j = k * N] is record [k], under the index [j]. *)
Theorem multiples_are_kept (nodes : list TrackDetailNode) (include_walls : bool) (N : Z)
    (out : list dict) (k : nat) (n : TrackDetailNode) :
  1 <= N ->
  nodes_to_dicts nodes include_walls N = Ok out ->
  nodes !! Z.to_nat (Z.of_nat k * N) = Some n ->
  out !! k = Some (node_dict (Z.of_nat k * N) n include_walls).
Proof.
  intros HN Hout Hn.
  destruct (nodes_to_dicts_from_count nodes 0 N include_walls HN ltac:(lia))
    as (out' & Hout' & Hlen).
  unfold nodes_to_dicts in Hout. rewrite Hout in Hout'. injection Hout' as <-.
  pose proof (lookup_lt_Some _ _ _ Hn) as Hlt.
  assert (k < length out)%nat as Hk.
  { assert (cdiv 0 N = 0) as E0 by (unfold cdiv; apply Z.div_small; lia).
    rewrite E0, Z.add_0_l, Z.sub_0_r in Hlen. unfold cdiv in Hlen.
    assert (Z.of_nat k + 1 <= (Z.of_nat (length nodes) + N - 1) / N)
      by (apply Z.div_le_lower_bound; nia).
    lia. }
  destruct (lookup_lt_is_Some_2 out k Hk) as [d Hd].
  destruct (nodes_to_dicts_from_lookup nodes 0 N include_walls out k d HN Hout Hd)
    as (n' & Hn' & ->).
  assert (retained_index 0 N k = Z.of_nat k * N) as E.
  { unfold retained_index. simpl. rewrite Z.mod_0_l by lia. lia. }
  rewrite E, Z.sub_0_r in *. rewrite Hn in Hn'. injection Hn' as <-. exact Hd.
Qed.

Lemma multiples_are_kept_witness :
  [node_dict 0 (sample_node 100 0) false; node_dict 2 (sample_node 102 20) false] !! 1%nat
  = Some (node_dict (Z.of_nat 1 * 2) (sample_node 102 20) false).
Proof.
  apply (multiples_are_kept sample_nodes false 2
           [node_dict 0 (sample_node 100 0) false; node_dict 2 (sample_node 102 20) false]
           1 (sample_node 102 20)).
  - lia.
  - vm_compute. reflexivity.
  - reflexivity.
Defined.

(** ** The writers *)

Lemma text_app_assoc (a b c : string) : (a +:+ b) +:+ c = a +:+ (b +:+ c).
Proof.
  induction a as [|x a IH]; [reflexivity|].
  change (String x ((a +:+ b) +:+ c) = String x (a +:+ (b +:+ c))). f_equal. exact IH.
Qed.

Lemma text_app_nil_r (a : string) : a +:+ "" = a.
Proof.
  induction a as [|x a IH]; [reflexivity|].
  change (String x (a +:+ "") = String x a). f_equal. exact IH.
Qed.

Lemma fwrite_with_file (f c text : string) (w : world) :
  fwrite f text (with_file f c w) = with_file f (c +:+ text) w.
Proof.
  unfold fwrite, with_file. simpl. rewrite lookup_insert_eq, insert_insert_eq. reflexivity.
Qed.

(** A loop of writes whose texts all render appends them in order. *)
Lemma write_each_ok {A} (render : A -> result string) (f : string) (w : world)
    (xs : list A) (texts : list string) :
  Forall2 (fun x text => render x = Ok text) xs texts ->
  forall c, write_each render xs f (with_file f c w)
            = (with_file f (c +:+ text_of texts) w, Ok tt).
Proof.
  induction 1 as [|x text xs texts Hx _ IH]; intros c; simpl.
  - rewrite text_app_nil_r. reflexivity.
  - rewrite Hx, fwrite_with_file, IH, text_app_assoc. reflexivity.
Qed.

(** At the first text that does not render the loop stops: the file keeps
    what was written before. *)
Lemma write_each_fail {A} (render : A -> result string) (f : string) (w : world)
    (good rest : list A) (bad : A) (texts : list string) (e : exn) :
  Forall2 (fun x text => render x = Ok text) good texts ->
  render bad = Raise e ->
  forall c, write_each render (good ++ bad :: rest) f (with_file f c w)
            = (with_file f (c +:+ text_of texts) w, Raise e).
Proof.
  intros Hgood Hbad.
  induction Hgood as [|x text xs texts Hx _ IH]; intros c; simpl.
  - rewrite Hbad, text_app_nil_r. reflexivity.
  - rewrite Hx, fwrite_with_file, IH, text_app_assoc. reflexivity.
Qed.

Lemma write_each_frame {A} (render : A -> result string) (f p : string) (xs : list A) :
  forall w, p <> f ->
  files (write_each render xs f w).1 !! p = files w !! p /\
  stdout (write_each render xs f w).1 = stdout w.
Proof.
  induction xs as [|x xs IH]; intros w Hp; simpl; [auto|].
  destruct (render x) as [text|e]; [|auto].
  destruct (IH (fwrite f text w) Hp) as [-> ->]. simpl.
  rewrite lookup_insert_ne by congruence. auto.
Qed.

(** X10: when every line renders, the text writer leaves in the output
    file the lines of the records, in order, and nothing of what the file
    held before; it prints nothing. *)
Theorem text_export_content (T : textlib) (dicts : list dict) (lines : list string)
    (out_file : string) (w : world) :
  Forall2 (fun d line => txt_line T d = Ok line) dicts lines ->
  write_txt T dicts out_file w = (with_file out_file (text_of lines) w, Ok tt).
Proof.
  intros H. unfold write_txt. change (open_w out_file w) with (with_file out_file "" w).
  rewrite (write_each_ok _ _ _ _ _ H). reflexivity.
Qed.

Lemma text_export_content_witness :
  write_txt textlib_sample
    [node_dict 0 (sample_node 100 0) false; node_dict 2 (sample_node 102 20) false]
    "out.txt" (with_file "out.txt" "old" empty_world)
  = (with_file "out.txt"
       (text_of ["0.000000,-0.000000" +:+ newline; "0.000000,-20.000000" +:+ newline])
       (with_file "out.txt" "old" empty_world), Ok tt).
Proof.
  apply (text_export_content textlib_sample).
  repeat constructor.
Defined.

(** X11: when a record does not render (a key is missing, a value is
    null), the text writer stops there: the file keeps the lines of the
    records before it and the exception leaves the writer. *)
Theorem text_export_stops_at_failure (T : textlib) (good rest : list dict) (bad : dict)
    (lines : list string) (e : exn) (out_file : string) (w : world) :
  Forall2 (fun d line => txt_line T d = Ok line) good lines ->
  txt_line T bad = Raise e ->
  write_txt T (good ++ bad :: rest) out_file w
  = (with_file out_file (text_of lines) w, Raise e).
Proof.
  intros Hgood Hbad. unfold write_txt.
  change (open_w out_file w) with (with_file out_file "" w).
  rewrite (write_each_fail _ _ _ _ _ _ _ _ Hgood Hbad). reflexivity.
Qed.

Lemma text_export_stops_at_failure_witness :
  write_txt textlib_sample
    ([node_dict 0 (sample_node 100 0) false] ++ [("y", VFloat 1)]
       :: [node_dict 2 (sample_node 102 20) false])
    "out.txt" empty_world
  = (with_file "out.txt" (text_of ["0.000000,-0.000000" +:+ newline]) empty_world,
     Raise (KeyError "x")).
Proof.
  apply (text_export_stops_at_failure textlib_sample).
  - repeat constructor.
  - reflexivity.
Defined.

(** X12: the line of the text export for the record of a node holds the z
    of its position, then the opposite of its x; both keys are always
    there. *)
Theorem text_line_of_node (T : textlib) (idx : Z) (n : TrackDetailNode)
    (include_walls : bool) :
  txt_line T (node_dict idx n include_walls) =
  sx ← format_6f T (VFloat (vec_2 (position n)));
  sz ← format_6f T (VFloat (- vec_0 (position n)));
  Ok (sx +:+ "," +:+ sz +:+ newline).
Proof.
  node_cases n; destruct include_walls; reflexivity.
Qed.

(** X13: the CSV export of the records of a transform starts with the
    header of the fixed keys, seven or thirteen, followed by the rows in
    order when they all render. *)
Theorem csv_export_content (T : textlib) (nodes : list TrackDetailNode)
    (include_walls : bool) (N : Z) (d0 : dict) (ds : list dict) (rows : list string)
    (out_file : string) (w : world) :
  nodes_to_dicts nodes include_walls N = Ok (d0 :: ds) ->
  Forall2 (fun d row => csv_row T (record_keys include_walls) d = Ok row) (d0 :: ds) rows ->
  write_csv T (d0 :: ds) out_file w
  = (with_file out_file (csv_header T (record_keys include_walls) +:+ text_of rows) w,
     Ok tt).
Proof.
  intros Hout Hrows.
  destruct (nodes_to_dicts_from_elem nodes 0 N include_walls (d0 :: ds) d0 Hout
              ltac:(apply list_elem_of_here)) as (j & n & _ & E).
  assert (keys d0 = record_keys include_walls) as Hkeys
    by (rewrite E; apply node_dict_keys).
  unfold write_csv. rewrite Hkeys.
  change (open_w out_file w) with (with_file out_file "" w).
  rewrite fwrite_with_file. rewrite (write_each_ok _ _ _ _ _ Hrows). reflexivity.
Qed.

Lemma csv_export_content_witness :
  write_csv textlib_sample
    [node_dict 0 (sample_node 100 0) false; node_dict 2 (sample_node 102 20) false]
    "out.csv" empty_world
  = (with_file "out.csv"
       (csv_header textlib_sample (record_keys false)
        +:+ text_of ["0,100,0.0,0.0,-0.0,0.0,0.0" +:+ String (Ascii.ascii_of_nat 13) newline;
                     "2,102,0.0,0.0,-20.0,20.0,0.0" +:+ String (Ascii.ascii_of_nat 13) newline])
       empty_world, Ok tt).
Proof.
  apply (csv_export_content textlib_sample sample_nodes false 2).
  - vm_compute. reflexivity.
  - repeat constructor.
Defined.

(** X14: the three writers change no file but the output file. *)
Theorem writers_touch_one_file (T : textlib) (dicts : list dict) (out_file p : string)
    (w : world) :
  p <> out_file ->
  files (write_csv T dicts out_file w).1 !! p = files w !! p /\
  files (write_json T dicts out_file w).1 !! p = files w !! p /\
  files (write_txt T dicts out_file w).1 !! p = files w !! p.
Proof.
  intros Hp. repeat split.
  - unfold write_csv. destruct dicts as [|d0 ds]; [reflexivity|].
    destruct (write_each_frame (csv_row T (keys d0)) out_file p (d0 :: ds)
                (fwrite out_file (csv_header T (keys d0)) (open_w out_file w)) Hp)
      as [-> _].
    simpl. rewrite !lookup_insert_ne by congruence. reflexivity.
  - unfold write_json.
    destruct (write_each_frame (json_dump T) out_file p [dicts] (open_w out_file w) Hp)
      as [-> _].
    simpl. rewrite lookup_insert_ne by congruence. reflexivity.
  - unfold write_txt.
    destruct (write_each_frame (txt_line T) out_file p dicts (open_w out_file w) Hp)
      as [-> _].
    simpl. rewrite lookup_insert_ne by congruence. reflexivity.
Qed.

Lemma writers_touch_one_file_witness :
  files (write_csv textlib_sample [] "out.csv" (with_file "in.ai" "data" empty_world)).1
    !! "in.ai" = files (with_file "in.ai" "data" empty_world) !! "in.ai" /\
  files (write_json textlib_sample [] "out.csv" (with_file "in.ai" "data" empty_world)).1
    !! "in.ai" = files (with_file "in.ai" "data" empty_world) !! "in.ai" /\
  files (write_txt textlib_sample [] "out.csv" (with_file "in.ai" "data" empty_world)).1
    !! "in.ai" = files (with_file "in.ai" "data" empty_world) !! "in.ai".
Proof.
  apply (writers_touch_one_file textlib_sample [] "out.csv" "in.ai"). discriminate.
Defined.

(** ** main *)

Lemma write_csv_frame (T : textlib) (dicts : list dict) (out_file p : string) (w : world) :
  p <> out_file -> files (write_csv T dicts out_file w).1 !! p = files w !! p.
Proof.
  intros Hp. unfold write_csv. destruct dicts as [|d0 ds]; [reflexivity|].
  destruct (write_each_frame (csv_row T (keys d0)) out_file p (d0 :: ds)
              (fwrite out_file (csv_header T (keys d0)) (open_w out_file w)) Hp)
    as [-> _].
  simpl. rewrite !lookup_insert_ne by congruence. reflexivity.
Qed.

Lemma write_json_frame (T : textlib) (dicts : list dict) (out_file p : string) (w : world) :
  p <> out_file -> files (write_json T dicts out_file w).1 !! p = files w !! p.
Proof.
  intros Hp. unfold write_json.
  destruct (write_each_frame (json_dump T) out_file p [dicts] (open_w out_file w) Hp)
    as [-> _].
  simpl. rewrite lookup_insert_ne by congruence. reflexivity.
Qed.

Lemma write_txt_frame (T : textlib) (dicts : list dict) (out_file p : string) (w : world) :
  p <> out_file -> files (write_txt T dicts out_file w).1 !! p = files w !! p.
Proof.
  intros Hp. unfold write_txt.
  destruct (write_each_frame (txt_line T) out_file p dicts (open_w out_file w) Hp)
    as [-> _].
  simpl. rewrite lookup_insert_ne by congruence. reflexivity.
Qed.

Lemma print_each_files {A} (render : A -> result string) (xs : list A) :
  forall w, files (print_each render xs w).1 = files w.
Proof.
  induction xs as [|x xs IH]; intros w; simpl; [reflexivity|].
  destruct (render x) as [text|e]; [|reflexivity]. rewrite IH. reflexivity.
Qed.

Lemma export_stdout_files (T : textlib) (f : format) (dicts : list dict) (w : world) :
  files (export_stdout T f dicts w).1 = files w.
Proof.
  destruct f; simpl.
  - destruct dicts as [|d0 ds]; [reflexivity|]. rewrite print_each_files. reflexivity.
  - destruct (json_dump T dicts); reflexivity.
  - apply print_each_files.
Qed.

Lemma sorted_elem (matches : list string) (p : string) :
  p ∈ sorted matches <-> p ∈ matches.
Proof.
  unfold sorted. rewrite merge_sort_Permutation. reflexivity.
Qed.

Section Main.
Variable M : libm.
Variable T : textlib.
Variable O : oslib.
Variable a : arguments.


(** Files that do not parse leave one line each on the standard error. *)
Lemma main_loop_all_fail (n : nat) (paths : list string) :
  forall (s : system),
  Forall (fun p => exists message, getNodes_at M O (sys_world s) p = inr message) paths ->
  exists messages,
    main_loop M T O a n paths s
    = ({| sys_world := sys_world s; sys_stderr := sys_stderr s ++ messages;
          sys_dirs := sys_dirs s |}, Exit 0) /\
    Forall2 (fun p message => getNodes_at M O (sys_world s) p = inr message) paths messages.
Proof.
  induction paths as [|path paths IH]; intros s Hfail; cbn [main_loop].
  - exists []. rewrite app_nil_r. destruct s. split; [reflexivity|constructor].
  - apply Forall_cons in Hfail as [[message Hm] Hrest]. rewrite Hm.
    destruct (IH (eprint message s) Hrest) as (messages & -> & Hall).
    exists (message :: messages). simpl. rewrite <- app_assoc. split; [reflexivity|].
    constructor; assumption.
Qed.

(** With the records sent to the standard output, the loop leaves the
    files and the directories as they are. *)
Lemma main_loop_stdout (n : nat) (paths : list string) :
  to_stdout a || (bool_decide (out a = None) && (n =? 1)%nat) = true ->
  forall s : system,
  files (sys_world (main_loop M T O a n paths s).1) = files (sys_world s) /\
  sys_dirs (main_loop M T O a n paths s).1 = sys_dirs s.
Proof.
  intros Hmode. induction paths as [|path paths IH]; intros s; cbn [main_loop].
  - auto.
  - destruct (getNodes_at M O (sys_world s) path) as [nodes|message].
    + destruct (nodes_to_dicts _ _ _) as [dicts|e]; [|auto].
      rewrite Hmode.
      pose proof (export_stdout_files T (fmt a) dicts (sys_world s)) as Hfiles.
      destruct (export_stdout _ _ _ _) as [w [[]|e]]; simpl in Hfiles.
      * destruct (IH (set_world w s)) as [-> ->]. auto.
      * auto.
    + destruct (IH (eprint message s)) as [-> ->]. auto.
Qed.
End Main.



(** X16: when none of the matched files parses, the run ends with the
    status 0, with one line per file on the standard error, in sorted
    order, and with no other change. *)
Theorem failed_files_are_skipped (M : libm) (T : textlib) (O : oslib) (a : arguments)
    (s : system) :
  glob O (fastlane a) <> [] ->
  Forall (fun p => exists message, getNodes_at M O (sys_world s) p = inr message)
    (glob O (fastlane a)) ->
  exists messages,
    main M T O a s
    = ({| sys_world := sys_world s; sys_stderr := sys_stderr s ++ messages;
          sys_dirs := sys_dirs s |}, Exit 0) /\
    Forall2 (fun p message => getNodes_at M O (sys_world s) p = inr message)
      (sorted (glob O (fastlane a))) messages.
Proof.
  intros Hne Hfail. unfold main.
  destruct (glob O (fastlane a)) as [|p ps] eqn:E; [congruence|].
  apply main_loop_all_fail.
  apply Forall_forall. intros q Hq. apply (proj1 (sorted_elem _ _)) in Hq.
  rewrite Forall_forall in Hfail. apply Hfail, Hq.
Qed.

(** X17: when the records go to the standard output, with [--stdout] or
    with one match and no [-o], the run changes no file and creates no
    directory. *)
Theorem stdout_mode_writes_no_file (M : libm) (T : textlib) (O : oslib) (a : arguments)
    (s : system) :
  to_stdout a = true \/ (out a = None /\ length (glob O (fastlane a)) = 1%nat) ->
  files (sys_world (main M T O a s).1) = files (sys_world s) /\
  sys_dirs (main M T O a s).1 = sys_dirs s.
Proof.
  intros Hmode. unfold main.
  destruct (glob O (fastlane a)) as [|p ps] eqn:E; [auto|].
  apply main_loop_stdout.
  destruct Hmode as [->|[-> Hone]]; [reflexivity|].
  rewrite Hone. simpl. apply orb_true_r.
Qed.

Lemma failed_files_are_skipped_witness :
  exists messages,
    main libm_sample textlib_sample oslib_sample
      (sample_arguments "tracks/m*.ai" (Some "out") Fcsv false) sample_system
    = ({| sys_world := sys_world sample_system;
          sys_stderr := sys_stderr sample_system ++ messages;
          sys_dirs := sys_dirs sample_system |}, Exit 0) /\
    Forall2 (fun p message =>
               getNodes_at libm_sample oslib_sample (sys_world sample_system) p
               = inr message)
      ["tracks/monza.ai"; "tracks/mugello.ai"] messages.
Proof.
  apply (failed_files_are_skipped libm_sample textlib_sample oslib_sample
           (sample_arguments "tracks/m*.ai" (Some "out") Fcsv false) sample_system).
  - discriminate.
  - repeat constructor; eexists; vm_compute; reflexivity.
Defined.

Lemma stdout_mode_writes_no_file_witness :
  files (sys_world (main libm_sample textlib_sample oslib_sample
                      (sample_arguments "one.ai" None Ftxt false) sample_system).1)
  = files (sys_world sample_system) /\
  sys_dirs (main libm_sample textlib_sample oslib_sample
              (sample_arguments "one.ai" None Ftxt false) sample_system).1
  = sys_dirs sample_system.
Proof.
  apply (stdout_mode_writes_no_file libm_sample textlib_sample oslib_sample
           (sample_arguments "one.ai" None Ftxt false) sample_system).
  right. split; reflexivity.
Defined.

Lemma sorted_singleton (p : string) : sorted [p] = [p].
Proof. reflexivity. Qed.

(** X18: with a single match the only file that a run may change is the
    one named by [-o], and no directory is created: the name derived from
    the input, [<input>_coords.<format>], is never used for a single
    match. *)
Theorem single_match_target (M : libm) (T : textlib) (O : oslib) (a : arguments)
    (s : system) (p q : string) :
  glob O (fastlane a) = [p] ->
  out a <> Some q ->
  files (sys_world (main M T O a s).1) !! q = files (sys_world s) !! q /\
  sys_dirs (main M T O a s).1 = sys_dirs s.
Proof.
  intros Hglob Hq. unfold main. rewrite Hglob, sorted_singleton.
  cbn [main_loop length].
  destruct (getNodes_at M O (sys_world s) p) as [nodes|message]; [|auto].
  destruct (nodes_to_dicts _ _ _) as [dicts|e]; [|auto].
  destruct (to_stdout a || _) eqn:Hmode.
  - pose proof (export_stdout_files T (fmt a) dicts (sys_world s)) as Hfiles.
    destruct (export_stdout _ _ _ _) as [w [[]|e]]; simpl in *; rewrite Hfiles; auto.
  - apply orb_false_iff in Hmode as [_ Hmode]. rewrite andb_true_r in Hmode.
    apply bool_decide_eq_false in Hmode.
    destruct (out a) as [o|] eqn:Hout; [|congruence].
    assert (q <> o) as Hne by congruence.
    unfold export_file, out_target. rewrite Hout. simpl.
    destruct (fmt a).
    + pose proof (write_csv_frame T dicts o q (sys_world s) Hne) as Hframe.
      destruct (write_csv _ _ _ _) as [w [[]|e]]; simpl in *; auto.
    + pose proof (write_json_frame T dicts o q (sys_world s) Hne) as Hframe.
      destruct (write_json _ _ _ _) as [w [[]|e]]; simpl in *; auto.
    + pose proof (write_txt_frame T dicts o q (sys_world s) Hne) as Hframe.
      destruct (write_txt _ _ _ _) as [w [[]|e]]; simpl in *; auto.
Qed.

Lemma single_match_target_witness :
  files (sys_world (main libm_sample textlib_sample oslib_sample
                      (sample_arguments "one.ai" None Fjson false) sample_system).1)
    !! "one_coords.json" = files (sys_world sample_system) !! "one_coords.json" /\
  sys_dirs (main libm_sample textlib_sample oslib_sample
              (sample_arguments "one.ai" None Fjson false) sample_system).1
  = sys_dirs sample_system.
Proof.
  apply (single_match_target libm_sample textlib_sample oslib_sample
           (sample_arguments "one.ai" None Fjson false) sample_system "one.ai").
  - reflexivity.
  - discriminate.
Defined.

(** X19: with a single match, [-o] and the CSV format, a file that parses
    to no node leaves no output file: the run prints "No data to write.",
    then "Wrote:" with the path all the same, and ends with the status
    0. *)
Theorem wrote_after_no_data (M : libm) (T : textlib) (O : oslib) (a : arguments)
    (s : system) (p o : string) :
  glob O (fastlane a) = [p] ->
  out a = Some o ->
  to_stdout a = false ->
  fmt a = Fcsv ->
  getNodes_at M O (sys_world s) p = inl [] ->
  main M T O a s
  = (set_world (print ("Wrote: " +:+ o) (print "No data to write." (sys_world s))) s,
     Exit 0).
Proof.
  intros Hglob Hout Hstd Hfmt Hnodes. unfold main.
  rewrite Hglob, sorted_singleton. cbn [main_loop length].
  rewrite Hnodes, Hstd, Hout. simpl.
  unfold export_file, out_target. rewrite Hout, Hfmt. reflexivity.
Qed.

Lemma wrote_after_no_data_witness :
  main libm_sample textlib_sample oslib_sample
    (sample_arguments "one.ai" (Some "o.csv") Fcsv false) sample_system
  = (set_world (print "Wrote: o.csv" (print "No data to write." (sys_world sample_system)))
       sample_system, Exit 0).
Proof.
  apply (wrote_after_no_data libm_sample textlib_sample oslib_sample
           (sample_arguments "one.ai" (Some "o.csv") Fcsv false) sample_system "one.ai").
  - reflexivity.
  - reflexivity.
  - reflexivity.
  - reflexivity.
  - vm_compute. reflexivity.
Defined.

(** ** The chunked senders *)

Lemma chunk_total_snoc {A} (size : A -> Z) (chunk : list A) (item : A) :
  chunk_total size (chunk ++ [item]) = chunk_total size chunk + size item.
Proof.
  induction chunk as [|x chunk IH]; simpl; [lia|]. rewrite IH. lia.
Qed.

(** The loop hands over full chunks and keeps the last one: nothing is
    lost, reordered or sent twice, every chunk fits, and only a chunk that
    was empty at the start can be sent empty. *)
Lemma chunk_loop_inv {A} (size : A -> Z) (ptype : string) (items : list A) :
  forall (chunk : list A) (st : sender A),
  exists new,
    payloads (chunk_loop size ptype items chunk (chunk_total size chunk) st).2
      = payloads st ++ new /\
    sender_log (chunk_loop size ptype items chunk (chunk_total size chunk) st).2
      = sender_log st /\
    concat (payload_data <$> new)
      ++ (chunk_loop size ptype items chunk (chunk_total size chunk) st).1
      = chunk ++ items /\
    Forall (fun p => payload_type p = ptype) new /\
    (chunk_fits size chunk ->
     Forall (fun p => chunk_fits size (payload_data p)) new /\
     chunk_fits size (chunk_loop size ptype items chunk (chunk_total size chunk) st).1) /\
    (chunk <> [] ->
     Forall (fun p => payload_data p <> []) new /\
     (chunk_loop size ptype items chunk (chunk_total size chunk) st).1 <> []).
Proof.
  induction items as [|item items IH]; intros chunk st.
  - exists []. simpl. rewrite !app_nil_r. auto 10.
  - cbn [chunk_loop].
    destruct (Z.ltb_spec MAX_UDP_PACKET_SIZE (chunk_total size chunk + size item))
      as [Hover|Hfit].
    + assert (chunk_total size [item] = size item) as E by (simpl; lia).
      rewrite <- E.
      destruct (IH [item] (send_udp_payload {| payload_type := ptype;
                                               payload_data := chunk |} st))
        as (new & Hp & Hl & Hcat & Hty & Hfits & Hne).
      set (r := chunk_loop size ptype items [item] (chunk_total size [item]) _) in *.
      exists ({| payload_type := ptype; payload_data := chunk |} :: new).
      split.
      { rewrite Hp. unfold send_udp_payload. cbn [payloads].
        rewrite <- app_assoc. reflexivity. }
      split; [rewrite Hl; reflexivity|].
      split.
      { rewrite fmap_cons. cbn [concat payload_data]. rewrite <- app_assoc, Hcat.
        reflexivity. }
      split; [constructor; [reflexivity|assumption]|].
      destruct Hfits as [Hnew Hlast]; [right; simpl; lia|].
      destruct Hne as [Hnew' Hlast']; [discriminate|].
      split; intros Hchunk; (split; [constructor; assumption|assumption]).
    + rewrite <- chunk_total_snoc.
      destruct (IH (chunk ++ [item]) st) as (new & Hp & Hl & Hcat & Hty & Hfits & Hne).
      set (r := chunk_loop size ptype items (chunk ++ [item]) _ _) in *.
      exists new.
      split; [exact Hp|]. split; [exact Hl|].
      split; [rewrite Hcat, <- app_assoc; reflexivity|].
      split; [assumption|].
      split.
      * intros _. apply Hfits. left. rewrite chunk_total_snoc. exact Hfit.
      * intros _. apply Hne. destruct chunk; discriminate.
Qed.

Section Chunked.
Context {A : Type}.
Variable size : A -> Z.
Variable ptype : string.
Variable no_data : string.

Lemma send_udp_chunked_empty (st : sender A) :
  send_udp_chunked size ptype no_data [] st = sender_log_line no_data st.
Proof. reflexivity. Qed.

(** The payloads of one call: their chunks, put end to end, are the data. *)
Lemma send_udp_chunked_cover (data : list A) (st : sender A) :
  data <> [] ->
  exists new,
    payloads (send_udp_chunked size ptype no_data data st) = payloads st ++ new /\
    sender_log (send_udp_chunked size ptype no_data data st) = sender_log st /\
    concat (payload_data <$> new) = data /\
    Forall (fun p => payload_type p = ptype) new /\
    Forall (fun p => chunk_fits size (payload_data p)) new.
Proof.
  intros Hdata. unfold send_udp_chunked. destruct data as [|x data]; [congruence|].
  destruct (chunk_loop_inv size ptype (x :: data) [] st)
    as (new & Hp & Hl & Hcat & Hty & Hfits & _).
  change 0 with (chunk_total size []).
  destruct (chunk_loop size ptype (x :: data) [] (chunk_total size []) st)
    as [chunk st'] eqn:Hloop.
  cbn [fst snd] in *.
  destruct Hfits as [Hnew Hlast]; [left; simpl; unfold MAX_UDP_PACKET_SIZE; lia|].
  destruct chunk as [|c chunk].
  - exists new. rewrite app_nil_r in Hcat. auto.
  - exists (new ++ [{| payload_type := ptype; payload_data := c :: chunk |}]).
    simpl. rewrite Hp, Hl, <- app_assoc, fmap_app, concat_app. simpl.
    rewrite app_nil_r. split; [reflexivity|]. split; [reflexivity|].
    split; [exact Hcat|].
    split; apply Forall_app; (split; [assumption|]);
      (constructor; [|constructor]); [reflexivity|exact Hlast].
Qed.

(** An empty chunk is sent when the first item alone is over the packet
    size, and only then; it is the first payload. *)
Lemma send_udp_chunked_empty_chunk (x : A) (data : list A) (st : sender A) :
  exists new,
    payloads (send_udp_chunked size ptype no_data (x :: data) st)
    = payloads st
      ++ (if MAX_UDP_PACKET_SIZE <? size x
          then [{| payload_type := ptype; payload_data := [] |}] else [])
      ++ new /\
    Forall (fun p => payload_data p <> []) new.
Proof.
  unfold send_udp_chunked. cbn [chunk_loop]. rewrite Z.add_0_l.
  destruct (MAX_UDP_PACKET_SIZE <? size x).
  - assert (chunk_total size [x] = size x) as E by (simpl; lia).
    rewrite <- E.
    destruct (chunk_loop_inv size ptype data [x]
                (send_udp_payload {| payload_type := ptype; payload_data := [] |} st))
      as (new & Hp & _ & _ & _ & _ & Hne).
    destruct Hne as [Hnew Hlast]; [discriminate|].
    destruct (chunk_loop size ptype data [x] (chunk_total size [x]) _)
      as [chunk st'] eqn:Hloop.
    cbn [fst snd] in *. destruct chunk as [|c chunk]; [congruence|].
    exists (new ++ [{| payload_type := ptype; payload_data := c :: chunk |}]).
    simpl. rewrite Hp. simpl. rewrite <- !app_assoc. simpl.
    split; [reflexivity|]. apply Forall_app. split; [assumption|].
    repeat constructor. discriminate.
  - assert (chunk_total size ([] ++ [x]) = size x) as E by (simpl; lia).
    rewrite <- E.
    destruct (chunk_loop_inv size ptype data ([] ++ [x]) st)
      as (new & Hp & _ & _ & _ & _ & Hne).
    destruct Hne as [Hnew Hlast]; [discriminate|].
    destruct (chunk_loop size ptype data ([] ++ [x]) (chunk_total size ([] ++ [x])) st)
      as [chunk st'] eqn:Hloop.
    cbn [fst snd] in *. destruct chunk as [|c chunk]; [congruence|].
    exists (new ++ [{| payload_type := ptype; payload_data := c :: chunk |}]).
    simpl. rewrite Hp. split; [rewrite app_assoc; reflexivity|].
    apply Forall_app. split; [assumption|]. repeat constructor. discriminate.
Qed.
End Chunked.



Example sample_chunks :
  payload_data <$> payloads (send_cars_telemetry_udp_chunked own_size [600; 300; 100; 500; 10]
                               empty_sender)
  = [[600; 300; 100]; [500; 10]].
Proof. reflexivity. Qed.

(** X21: every chunk handed over is within 1024 bytes by the sizes of its
    items, or holds a single item (one that is over the limit alone), or is
    empty. *)
Theorem chunks_fit {A} (size : A -> Z) (data : list A) (st : sender A)
    (p : UdpPayload (list A)) :
  (p ∈ payloads (send_cars_telemetry_udp_chunked size data st) \/
   p ∈ payloads (send_players_info_udp_chunked size data st)) ->
  p ∈ payloads st \/
  chunk_total size (payload_data p) <= 1024 \/ (length (payload_data p) <= 1)%nat.
Proof.
  assert (forall ptype no_data,
            p ∈ payloads (send_udp_chunked size ptype no_data data st) ->
            p ∈ payloads st \/ chunk_fits size (payload_data p)) as Hgen.
  { intros ptype no_data Hp. destruct data as [|x data]; [left; exact Hp|].
    destruct (send_udp_chunked_cover size ptype no_data (x :: data) st ltac:(discriminate))
      as (new & Enew & _ & _ & _ & Hfits).
    rewrite Enew in Hp. apply elem_of_app in Hp as [Hp|Hp]; [left; exact Hp|].
    right. rewrite Forall_forall in Hfits. apply Hfits, Hp. }
  intros [Hp|Hp]; eapply Hgen; exact Hp.
Qed.

Lemma chunks_fit_witness :
  {| payload_type := "cars_info"; payload_data := [2000] |} ∈ (@nil (UdpPayload (list Z))) \/
  chunk_total own_size [2000] <= 1024 \/ (length [2000] <= 1)%nat.
Proof.
  apply (chunks_fit own_size sample_items empty_sender
           {| payload_type := "cars_info"; payload_data := [2000] |}).
  left. vm_compute. apply list_elem_of_further, list_elem_of_further, list_elem_of_here.
Defined.

(** X22: a chunked sender hands over an empty chunk exactly when the first
    item alone is over 1024 bytes, and then as its first payload; no
    payload after it is empty. *)
Theorem empty_chunk_only_first {A} (size : A -> Z) (x : A) (data : list A) (st : sender A) :
  exists new,
    payloads (send_cars_telemetry_udp_chunked size (x :: data) st)
    = payloads st
      ++ (if 1024 <? size x
          then [{| payload_type := "cars_info"; payload_data := [] |}] else [])
      ++ new /\
    Forall (fun p => payload_data p <> []) new.
Proof.
  apply (send_udp_chunked_empty_chunk size CARS_INFO
           "[Kristex] No telemetry data to send." x data st).
Qed.

Example oversized_first_item :
  payload_data <$> payloads (send_cars_telemetry_udp_chunked own_size [2000; 10] empty_sender)
  = [[]; [2000]; [10]].
Proof. reflexivity. Qed.

(** ** The stream of the track *)

(** Each record of the loop is delivered once or logged once. *)
Lemma stream_loop_inv (J : UdpPayload dict -> result string) (N : network)
    (dicts : list dict) :
  forall (i : nat) (st : stream),
  exists (sent : list string) (errors : nat),
    stream_loop J N i dicts st
    = {| delivered := delivered st ++ sent;
         stream_log := stream_log st ++ replicate errors "[Kristex] Error sending node" |} /\
    (length sent + errors = length dicts)%nat /\
    ((forall k, send_ok N k || sendto_ok N k = true) ->
     forall lines,
       Forall2 (fun d line => J {| payload_type := TRACK_NODE; payload_data := d |}
                              = Ok line) dicts lines ->
       sent = lines /\ errors = 0%nat).
Proof.
  induction dicts as [|d dicts IH]; intros i st.
  - exists [], 0%nat. simpl. rewrite !app_nil_r. destruct st.
    split; [reflexivity|]. split; [reflexivity|].
    intros _ lines Hlines. inversion Hlines. auto.
  - cbn [stream_loop].
    destruct (J {| payload_type := TRACK_NODE; payload_data := d |}) as [line|e] eqn:Hline.
    + destruct (send_ok N i || sendto_ok N i) eqn:Hok.
      * assert ((if send_ok N i then deliver line st
                 else if sendto_ok N i then deliver line st
                 else stream_log_line "[Kristex] Error sending node" st)
                = deliver line st) as ->.
        { destruct (send_ok N i); [reflexivity|]. simpl in Hok. rewrite Hok. reflexivity. }
        destruct (IH (S i) (deliver line st)) as (sent & errors & -> & Hlen & Hup).
        exists (line :: sent), errors. simpl. rewrite <- app_assoc.
        split; [reflexivity|]. split; [lia|].
        intros Hall lines Hlines. inversion Hlines as [|? l ? ls Hl Hls]; subst.
        destruct (Hup Hall ls Hls) as [-> ->]. rewrite Hline in Hl. injection Hl as ->.
        auto.
      * apply orb_false_iff in Hok as [H1 H2]. rewrite H1, H2.
        destruct (IH (S i) (stream_log_line "[Kristex] Error sending node" st))
          as (sent & errors & -> & Hlen & Hup).
        exists sent, (S errors). simpl. rewrite <- app_assoc.
        split; [reflexivity|]. split; [lia|].
        intros Hall. specialize (Hall i). rewrite H1, H2 in Hall. discriminate.
    + destruct (IH (S i) (stream_log_line "[Kristex] Error sending node" st))
        as (sent & errors & -> & Hlen & Hup).
      exists sent, (S errors). simpl. rewrite <- app_assoc.
      split; [reflexivity|]. split; [lia|].
      intros _ lines Hlines. inversion Hlines as [|? l ? ls Hl Hls]; subst.
      rewrite Hline in Hl. discriminate.
Qed.

(** X23: with records to stream and a socket, every record is handled
    once: its line is delivered, or "Error sending node" is logged, between
    the two lines that open and close the stream; when neither [send] nor
    [sendto] ever fails and every line renders, the lines delivered are
    those of the records, in order. *)
Theorem stream_handles_each_record (J : UdpPayload dict -> result string) (N : network)
    (dicts : list dict) (st : stream) :
  dicts <> [] ->
  socket_ok N = true ->
  exists (sent : list string) (errors : nat),
    _udp_stream_dicts J N dicts st
    = {| delivered := delivered st ++ sent;
         stream_log := stream_log st
           ++ ["[Kristex] Streaming nodes over UDP to 127.0.0.1:22566 ..."]
           ++ replicate errors "[Kristex] Error sending node"
           ++ ["[Kristex] Finished streaming nodes."] |} /\
    (length sent + errors = length dicts)%nat /\
    ((forall k, send_ok N k || sendto_ok N k = true) ->
     forall lines,
       Forall2 (fun d line => J {| payload_type := "track_node"; payload_data := d |}
                              = Ok line) dicts lines ->
       sent = lines /\ errors = 0%nat).
Proof.
  intros Hdicts Hsock. unfold _udp_stream_dicts. rewrite Hsock.
  destruct (stream_loop_inv J N dicts 0
              (stream_log_line "[Kristex] Streaming nodes over UDP to 127.0.0.1:22566 ..." st))
    as (sent & errors & -> & Hlen & Hup).
  exists sent, errors. destruct dicts as [|d dicts]; [congruence|].
  split; [|split; [exact Hlen|exact Hup]].
  unfold stream_log_line. simpl. rewrite <- !app_assoc. reflexivity.
Qed.

Lemma stream_handles_each_record_witness :
  exists (sent : list string) (errors : nat),
    _udp_stream_dicts sample_json_line network_sample
      [node_dict 0 (sample_node 100 0) false; node_dict 5 (sample_node 105 50) false;
       node_dict 10 (sample_node 110 100) false] empty_stream
    = {| delivered := [] ++ sent;
         stream_log := []
           ++ ["[Kristex] Streaming nodes over UDP to 127.0.0.1:22566 ..."]
           ++ replicate errors "[Kristex] Error sending node"
           ++ ["[Kristex] Finished streaming nodes."] |} /\
    (length sent + errors = 3)%nat /\
    ((forall k, send_ok network_sample k || sendto_ok network_sample k = true) ->
     forall lines,
       Forall2 (fun d line => sample_json_line
                                {| payload_type := "track_node"; payload_data := d |}
                              = Ok line)
         [node_dict 0 (sample_node 100 0) false; node_dict 5 (sample_node 105 50) false;
          node_dict 10 (sample_node 110 100) false] lines ->
       sent = lines /\ errors = 0%nat).
Proof.
  apply (stream_handles_each_record sample_json_line network_sample
           [node_dict 0 (sample_node 100 0) false; node_dict 5 (sample_node 105 50) false;
            node_dict 10 (sample_node 110 100) false] empty_stream).
  - discriminate.
  - reflexivity.
Defined.

Example sample_stream :
  _udp_stream_dicts sample_json_line network_sample
    [node_dict 0 (sample_node 100 0) false; node_dict 5 (sample_node 105 50) false;
     node_dict 10 (sample_node 110 100) false] empty_stream
  = {| delivered := ["track_node 0"; "track_node 10"];
       stream_log := ["[Kristex] Streaming nodes over UDP to 127.0.0.1:22566 ...";
                      "[Kristex] Error sending node";
                      "[Kristex] Finished streaming nodes."] |}.
Proof. reflexivity. Qed.

(** X24: the preparation of the track never fails.  When the fast lane
    does not parse, the prepared records are cleared, the text of the
    exception is kept as the error and no line is delivered; when it
    parses, the error is cleared and the prepared records are those of
    every fifth node, without walls. *)
Theorem prepare_outcome (M : libm) (O : oslib) (J : UdpPayload dict -> result string)
    (N : network) (track_name track_config : string) (w : world) (p : prepared) :
  match getNodes_at M O w (fast_lane_path O track_name track_config) with
  | inr message =>
      _prepared_track_dicts
        (_prepare_and_send_track_thread M O J N track_name track_config w p) = None /\
      _prepare_error
        (_prepare_and_send_track_thread M O J N track_name track_config w p)
        = Some message /\
      delivered (prepared_stream
                   (_prepare_and_send_track_thread M O J N track_name track_config w p))
        = delivered (prepared_stream p)
  | inl nodes =>
      exists dicts,
        nodes_to_dicts nodes false 5 = Ok dicts /\
        _prepared_track_dicts
          (_prepare_and_send_track_thread M O J N track_name track_config w p)
          = Some dicts /\
        _prepare_error
          (_prepare_and_send_track_thread M O J N track_name track_config w p) = None /\
        Z.of_nat (length dicts) = cdiv (Z.of_nat (length nodes)) 5 /\
        Forall (fun d => keys d = record_keys false) dicts
  end.
Proof.
  unfold _prepare_and_send_track_thread.
  destruct (getNodes_at M O w (fast_lane_path O track_name track_config))
    as [nodes|message].
  - destruct (nodes_to_dicts_from_count nodes 0 5 false ltac:(lia) ltac:(lia))
      as (dicts & Hdicts & Hlen).
    exists dicts. unfold nodes_to_dicts. rewrite Hdicts.
    split; [reflexivity|]. split; [reflexivity|]. split; [reflexivity|].
    split.
    + rewrite Hlen, Z.add_0_l. change (cdiv 0 5) with 0. lia.
    + apply Forall_forall. intros d Hd.
      destruct (nodes_to_dicts_from_elem nodes 0 5 false dicts d Hdicts Hd)
        as (j & n & _ & ->).
      apply node_dict_keys.
  - simpl. auto.
Qed.

Example sample_prepare :
  let p := _prepare_and_send_track_thread libm_sample oslib_sample sample_json_line
             network_up "imola" ""
             {| files := {[ "content/tracks/imola/ai/fast_lane.ai"
                            := String.string_of_list_byte truncated_file ]};
                stdout := [] |} empty_prepared in
  (length <$> _prepared_track_dicts p, _prepare_error p, delivered (prepared_stream p))
  = (Some 1%nat, None, ["track_node 0"]).
Proof. vm_compute. reflexivity. Qed.

(** ** A batch *)

Lemma out_target_batch (O : oslib) (a : arguments) (n : nat) (path : string) (s s' : system)
    (out_file : string) :
  (1 < n)%nat ->
  out_target O a n path s = inl (s', out_file) ->
  sys_world s' = sys_world s /\ out_file = batch_target O a path.
Proof.
  intros Hn. unfold out_target, batch_target.
  destruct (Nat.ltb_spec 1 n) as [_|?]; [|lia].
  assert (match out a with
          | Some o => if isdir O o || endswith o (sep O) then o else o
          | None => getcwd O
          end = match out a with None => getcwd O | Some o => o end) as ->.
  { destruct (out a) as [o|]; [|reflexivity]. destruct (_ || _); reflexivity. }
  unfold makedirs. destruct (bool_decide _); [discriminate|].
  intros [= <- <-]. auto.
Qed.

Lemma export_file_batch (T : textlib) (O : oslib) (a : arguments) (n : nat)
    (path q : string) (dicts : list dict) (s s' : system) (r : result unit) :
  (1 < n)%nat ->
  q <> batch_target O a path ->
  export_file T O a n path dicts s = inl (s', r) ->
  files (sys_world s') !! q = files (sys_world s) !! q.
Proof.
  intros Hn Hq. unfold export_file.
  destruct (out_target O a n path s) as [[s1 out_file]|o] eqn:Ht; [|discriminate].
  apply out_target_batch in Ht as [Hw ->]; [|assumption].
  rewrite Hw. destruct (fmt a).
  - pose proof (write_csv_frame T dicts _ q (sys_world s) Hq) as Hframe.
    destruct (write_csv _ _ _ _) as [w [[]|e]]; intros [= <- _]; exact Hframe.
  - pose proof (write_json_frame T dicts _ q (sys_world s) Hq) as Hframe.
    destruct (write_json _ _ _ _) as [w [[]|e]]; intros [= <- _]; exact Hframe.
  - pose proof (write_txt_frame T dicts _ q (sys_world s) Hq) as Hframe.
    destruct (write_txt _ _ _ _) as [w [[]|e]]; intros [= <- _]; exact Hframe.
Qed.

Lemma main_loop_batch (M : libm) (T : textlib) (O : oslib) (a : arguments) (n : nat)
    (q : string) (paths : list string) :
  (1 < n)%nat ->
  (forall p, p ∈ paths -> q <> batch_target O a p) ->
  forall s : system,
  files (sys_world (main_loop M T O a n paths s).1) !! q = files (sys_world s) !! q.
Proof.
  intros Hn. induction paths as [|path paths IH]; intros Hq s; cbn [main_loop].
  - reflexivity.
  - assert (forall p, p ∈ paths -> q <> batch_target O a p) as Hq'
      by (intros p Hp; apply Hq, list_elem_of_further, Hp).
    destruct (getNodes_at M O (sys_world s) path) as [nodes|message];
      [|rewrite (IH Hq'); reflexivity].
    destruct (nodes_to_dicts _ _ _) as [dicts|e]; [|reflexivity].
    destruct (to_stdout a || _).
    + pose proof (export_stdout_files T (fmt a) dicts (sys_world s)) as Hfiles.
      destruct (export_stdout _ _ _ _) as [w [[]|e]]; simpl in Hfiles.
      * rewrite (IH Hq'). simpl. rewrite Hfiles. reflexivity.
      * simpl. rewrite Hfiles. reflexivity.
    + destruct (export_file T O a n path dicts s) as [[s1 r]|o] eqn:E; [|reflexivity].
      apply export_file_batch with (q := q) in E;
        [|assumption|apply Hq, list_elem_of_here].
      destruct r as [[]|e]; [rewrite (IH Hq')|]; exact E.
Qed.

(** X25: with several matches a run changes no file but the outputs of the
    matched files, each named after the base name of its input, without
    its extension, followed by [_coords.<format>], in the directory of
    [-o], or in the working directory without [-o]. *)
Theorem batch_targets (M : libm) (T : textlib) (O : oslib) (a : arguments) (s : system)
    (q : string) :
  (1 < length (glob O (fastlane a)))%nat ->
  (forall p, p ∈ glob O (fastlane a) -> q <> batch_target O a p) ->
  files (sys_world (main M T O a s).1) !! q = files (sys_world s) !! q.
Proof.
  intros Hn Hq. unfold main.
  destruct (glob O (fastlane a)) as [|p ps] eqn:E; [reflexivity|].
  apply main_loop_batch; [exact Hn|].
  intros p' Hp'. apply Hq. apply (proj1 (sorted_elem _ _)), Hp'.
Qed.

Lemma batch_targets_witness :
  files (sys_world (main libm_sample textlib_sample oslib_sample
                      (sample_arguments "tracks/*.ai" (Some "out") Ftxt false)
                      sample_system).1) !! "tracks/imola.ai"
  = files (sys_world sample_system) !! "tracks/imola.ai".
Proof.
  apply (batch_targets libm_sample textlib_sample oslib_sample
           (sample_arguments "tracks/*.ai" (Some "out") Ftxt false) sample_system).
  - simpl. lia.
  - intros p Hp. apply elem_of_cons in Hp as [->|Hp];
      [|apply elem_of_cons in Hp as [->|Hp]; [|apply elem_of_nil in Hp as []]];
      vm_compute; discriminate.
Defined.

Example sample_batch :
  let r := main libm_sample textlib_sample oslib_sample
             (sample_arguments "tracks/*.ai" (Some "out") Ftxt false) sample_system in
  (files (sys_world r.1) !! "out/imola_coords.txt", stdout (sys_world r.1),
   sys_stderr r.1, r.2)
  = (Some ("0.000000,-0.000000" +:+ newline +:+ "0.000000,-10.000000" +:+ newline),
     ["Wrote: out/imola_coords.txt"],
     ["Failed to parse 'tracks/monza.ai': File too short or invalid header."],
     Exit 0).
Proof. vm_compute. reflexivity. Qed.

(** ** More on nodes and on the JSON writer *)

(** X26: the two walls of a node are there together or not at all; when
    they are there they keep the y of the position, and when they are not
    the track centre is the position. *)
Theorem walls_both_or_none (M : libm) (cur prev : ideal) (rawDetail : list float) :
  (wallLeft (TrackDetailNode_init M cur prev rawDetail) = None /\
   wallRight (TrackDetailNode_init M cur prev rawDetail) = None /\
   trackCenter (TrackDetailNode_init M cur prev rawDetail)
   = position (TrackDetailNode_init M cur prev rawDetail)) \/
  (exists wl wr,
     wallLeft (TrackDetailNode_init M cur prev rawDetail) = Some wl /\
     wallRight (TrackDetailNode_init M cur prev rawDetail) = Some wr /\
     vec_1 wl = ideal_1 cur /\ vec_1 wr = ideal_1 cur /\
     trackCenter (TrackDetailNode_init M cur prev rawDetail) = midpoint wl wr).
Proof.
  pose proof (init_walls M cur prev rawDetail) as Hw. cbv zeta in Hw.
  destruct (walls_try _ _ _ _) as [[[wl wr] tc]|e] eqn:Htry.
  - right. destruct Hw as (Hl & Hr & Hc). exists wl, wr.
    apply walls_try_Ok in Htry as (L & R & _ & _ & -> & -> & ->).
    rewrite init_position in *. auto.
  - left. exact Hw.
Qed.

(** X27: the JSON writer has no test for an empty sequence: whenever the
    dump renders, also for no record at all, the output file is created or
    replaced and holds the dump. *)
Theorem json_export_content (T : textlib) (dicts : list dict) (text out_file : string)
    (w : world) :
  json_dump T dicts = Ok text ->
  write_json T dicts out_file w = (with_file out_file text w, Ok tt).
Proof.
  intros H. unfold write_json.
  change (open_w out_file w) with (with_file out_file "" w).
  rewrite (write_each_ok (json_dump T) out_file w [dicts] [text]);
    [|repeat constructor; exact H].
  simpl. rewrite text_app_nil_r. reflexivity.
Qed.

Lemma json_export_content_witness :
  write_json textlib_sample [] "out.json" empty_world
  = (with_file "out.json" "[]" empty_world, Ok tt).
Proof.
  apply (json_export_content textlib_sample [] "[]" "out.json" empty_world).
  reflexivity.
Defined.
